(** * Essentials-QuantFinance: data loader, analysis tools, visualisation

    A shallow embedding of the three Python modules of the repository

      - [src/data_loader.py]      ([stock_data])
      - [src/analysis_tools.py]   ([descriptive_stats], [ts_stationarity])
      - [src/visualisation.py]    ([tracking_plot], [plot_histograms],
                                   [plot_boxplots], [ts_decomposition],
                                   [acf_pacf], [moving_averages])

    Python exceptions are an explicit [result] type, float64 values are
    Rocq's primitive binary64 floats (a missing value is NaN, as in pandas),
    a DataFrame is its index, its two axis names and its labelled columns in
    order.  Routines of pandas, statsmodels, matplotlib and yfinance that the
    repository calls but does not define are [Variable]s of the section that
    uses them, except for the few (column selection, [dropna], count, mean,
    min, max, the subplot grid) whose behaviour the statements below are
    about. *)

From Stdlib Require Import ZArith Floats Lia.
From stdpp Require Import base list strings.

(** ** Python results and exceptions *)

Module Py.

(** The built-in exception classes that occur.  [KeyboardInterrupt] derives
    from [BaseException] only; every other class derives from [Exception]. *)
Inductive exn_class :=
  | ValueError | KeyError | IndexError | OverflowError | TypeError
  | AttributeError
  | ProviderError            (* any Exception raised inside yfinance *)
  | KeyboardInterrupt.

(** An exception: its class and the argument it was raised with (the
    message, without the numbers Python writes into it; the key of a
    KeyError). *)
Record exn := mk_exn { exn_cls : exn_class; exn_arg : string }.

(** [str(e)]: the argument, which a KeyError puts in quotes. *)
Definition exn_str (e : exn) : string :=
  match exn_cls e with
  | KeyError => "'" ++ exn_arg e ++ "'"
  | _ => exn_arg e
  end.

(** [isinstance(e, Exception)] *)
Definition is_Exception (e : exn) : bool :=
  match exn_cls e with
  | KeyboardInterrupt => false
  | _ => true
  end.

Inductive result (A : Type) :=
  | Ok (a : A)
  | Raise (e : exn).
Arguments Ok {A} a.
Arguments Raise {A} e.

(** Sequencing: an exception raised by the first step is the outcome. *)
Definition bind {A B} (m : result A) (f : A -> result B) : result B :=
  match m with
  | Ok a => f a
  | Raise e => Raise e
  end.

Notation "x <- m ;; k" := (bind m (fun x => k))
  (at level 100, m at next level, right associativity).

Definition is_Ok {A} (r : result A) : Prop := exists a, r = Ok a.

Definition raises {A} (r : result A) (c : exn_class) : Prop :=
  exists msg, r = Raise (mk_exn c msg).

End Py.
Import Py.

(** ** float64 comparisons

    [<=] and [<] on binary64 are read through [Prim2SF]; on values that are
    not NaN they are the lexicographic order of [rank]. *)

Module F64.

Definition rank (f : spec_float) : Z * Z * Z :=
  match f with
  | S754_infinity true => (-2, 0, 0)
  | S754_finite true m e => (-1, - e, - Z.pos m)
  | S754_zero _ => (0, 0, 0)
  | S754_nan => (0, 0, 0)
  | S754_finite false m e => (1, e, Z.pos m)
  | S754_infinity false => (2, 0, 0)
  end%Z.

Definition lex_le (p q : Z * Z * Z) : Prop :=
  let '(a, b, c) := p in
  let '(a', b', c') := q in
  (a < a' \/ (a = a' /\ (b < b' \/ (b = b' /\ c <= c'))))%Z.

Definition lex_lt (p q : Z * Z * Z) : Prop :=
  let '(a, b, c) := p in
  let '(a', b', c') := q in
  (a < a' \/ (a = a' /\ (b < b' \/ (b = b' /\ c < c'))))%Z.

(** [math.isnan]: NaN is the one value that differs from itself. *)
Definition isnan (x : float) : bool := negb (x =? x)%float.

Definition notna (x : float) : bool := negb (isnan x).

End F64.

(** ** Tables

    A [Series] holds the float64 values of one column in index order; a
    missing value is NaN.  A [DataFrame] has its row index, the names of its
    two axes and its labelled columns in column order.  pandas lets two
    columns carry one label (a list selection that repeats a label produces
    such a frame); the spec's Table, "columns named by ticker symbol", is a
    frame whose labels are distinct. *)

Module Frame.

Definition Series := list float.

Record DataFrame := mk_frame {
  index : list Z;
  index_name : option string;
  columns_name : option string;
  cols : list (string * Series)
}.

(** [data.columns] *)
Definition columns (data : DataFrame) : list string := (cols data).*1.

Definition Table (data : DataFrame) : Prop := NoDup (columns data).

(** [series.dropna()] *)
Definition dropna (s : Series) : Series := List.filter F64.notna s.

(** [data[key]] for one label of a Table: the column that carries it,
    [KeyError] when none does.  On a frame where several columns carry the
    label pandas hands back a frame of them all; the definition gives the
    first of them, and what is stated of the value of a lookup is stated
    for Tables. *)
Definition getitem (data : DataFrame) (key : string) : result Series :=
  match list_find (fun c => c.1 = key) (cols data) with
  | Some (_, c) => Ok c.2
  | None => Raise (mk_exn KeyError key)
  end.

(** [data[labels]] for a list of labels: for each label in turn, every column
    that carries it; [KeyError] when some label is not a column. *)
Definition select (data : DataFrame) (labels : list string)
  : result (list (string * Series)) :=
  if decide (Forall (fun t => t ∈ columns data) labels)
  then Ok (flat_map (fun t => filter (fun c => c.1 = t) (cols data)) labels)
  else Raise (mk_exn KeyError "not in index").

End Frame.
Import Frame.

(** ** analysis_tools.py *)

Module AnalysisTools.

(** The value columns of [DataFrame.describe()] for one numeric column. *)
Record Describe := mk_describe {
  d_count : float;
  d_mean : float;
  d_std : float;
  d_min : float;
  d_q25 : float;
  d_q50 : float;
  d_q75 : float;
  d_max : float
}.

(** One row of the frame [descriptive_stats] returns: the ticker that labels
    the row, the [describe()] columns, and the two columns added to them. *)
Record StatsRow := mk_stats {
  label : string;
  summary : Describe;
  skewness : float;
  kurtosis : float
}.

(** One record of the list [ts_stationarity] turns into a frame. *)
Record AdfRow := mk_adf {
  Ticker : string;
  ADF_Statistic : float;
  p_value : float;
  Stationary : string
}.

Definition float_of_nat (n : nat) : float :=
  PrimFloat.of_uint63 (Uint63.of_Z (Z.of_nat n)).

(** count, mean, min and max as pandas computes them with [skipna]: over the
    values that are not NaN; min and max of a column without values are
    NaN. *)
Definition count (s : Series) : float := float_of_nat (length (dropna s)).

(** The sum behind the mean: pandas puts 0 in the place of every missing
    value and lets numpy sum the array.  numpy sums fewer than eight values
    from left to right, up to 128 values in eight interleaved accumulators
    that it then adds in pairs, followed by the values left over, and a
    longer array as the sum of its two halves (the first cut down to a
    multiple of eight). *)
Definition fill0 (x : float) : float := if F64.isnan x then 0%float else x.

Fixpoint add_blocks (fuel : nat) (r l : list float) : list float * list float :=
  match fuel with
  | O => (r, l)
  | S fuel =>
      if 8 <=? length l
      then add_blocks fuel (zip_with PrimFloat.add r (take 8 l)) (drop 8 l)
      else (r, l)
  end.

Definition sum8 (r : list float) : float :=
  match r with
  | [r0; r1; r2; r3; r4; r5; r6; r7] =>
      (((r0 + r1) + (r2 + r3)) + ((r4 + r5) + (r6 + r7)))%float
  | _ => 0%float
  end.

Definition block_sum (l : list float) : float :=
  let '(r, rest) := add_blocks (length l) (take 8 l) (drop 8 l) in
  fold_left PrimFloat.add rest (sum8 r).

Fixpoint pairwise_sum (fuel : nat) (l : list float) : float :=
  let n := length l in
  if n <? 8 then fold_left PrimFloat.add l 0%float
  else if n <=? 128 then block_sum l
  else
    match fuel with
    | O => block_sum l
    | S fuel =>
        let n2 := n / 2 - (n / 2) mod 8 in
        (pairwise_sum fuel (take n2 l) + pairwise_sum fuel (drop n2 l))%float
    end.

Definition nansum (s : Series) : float :=
  pairwise_sum (length s) (fill0 <$> s).

(** The float64 sum divided by the count: 0/0 = NaN for a column without
    values. *)
Definition nanmean (s : Series) : float := (nansum s / count s)%float.

(** The smaller and the larger of the running value [a] and the next value
    [b]; of two equal values (a zero of either sign) the later is kept. *)
Definition fmin (a b : float) : float := if (a <? b)%float then a else b.
Definition fmax (a b : float) : float := if (b <? a)%float then a else b.

Definition nanmin (s : Series) : float :=
  match dropna s with
  | [] => nan
  | x :: xs => fold_left fmin xs x
  end.

Definition nanmax (s : Series) : float :=
  match dropna s with
  | [] => nan
  | x :: xs => fold_left fmax xs x
  end.

(** [adf[1] < 0.05]; the literal is the float64 nearest to 0.05. *)
Definition significance : float := 0x1.999999999999ap-5%float.

Definition no_valid_tickers : exn :=
  mk_exn ValueError "None of the provided tickers are found in the dataset.".

Section WithLibraries.

(** pandas: [Series.std], [Series.quantile(q)], [Series.skew], [Series.kurt]. *)
Variable std : Series -> float.
Variable quantile : float -> Series -> float.
Variable skew : Series -> float.
Variable kurt : Series -> float.

(** statsmodels: [adfuller(x)] returns a tuple that starts with the test
    statistic and the p-value, or raises. *)
Variable adfuller : Series -> result (float * float).

Definition describe_1d (s : Series) : Describe :=
  {| d_count := count s;
     d_mean := nanmean s;
     d_std := std s;
     d_min := nanmin s;
     d_q25 := quantile 0.25%float s;
     d_q50 := quantile 0.5%float s;
     d_q75 := quantile 0.75%float s;
     d_max := nanmax s |}.

(** [frame.describe().T]: one row per column of the frame, in column order;
    [frame.skew()] and [frame.kurt()]: one value per column, in column order. *)
Definition describe_T (frame : list (string * Series)) : list (string * Describe) :=
  (fun c => (c.1, describe_1d c.2)) <$> frame.

Definition frame_skew (frame : list (string * Series)) : list (string * float) :=
  (fun c => (c.1, skew c.2)) <$> frame.

Definition frame_kurt (frame : list (string * Series)) : list (string * float) :=
  (fun c => (c.1, kurt c.2)) <$> frame.

(** [stats['skewness'] = ...; stats['kurtosis'] = ...]: the three frames are
    computed from one selection and carry the same labels in the same order,
    so the assignment is by position. *)
Definition add_moments (stats : list (string * Describe))
    (sk ku : list (string * float)) : list StatsRow :=
  zip_with (fun d m => mk_stats d.1 d.2 m.1 m.2) stats (zip (sk.*2) (ku.*2)).

Definition descriptive_stats (data : DataFrame) (tickers : list string)
  : result (list StatsRow) :=
  let valid_tickers := filter (fun t => t ∈ columns data) tickers in
  if decide (valid_tickers = []) then Raise no_valid_tickers
  else
    frame <- select data valid_tickers;;
    Ok (add_moments (describe_T frame) (frame_skew frame) (frame_kurt frame)).

Definition adf_row (stock : string) (adf : float * float) : AdfRow :=
  {| Ticker := stock;
     ADF_Statistic := adf.1;
     p_value := adf.2;
     Stationary := if (adf.2 <? significance)%float then "Yes" else "No" |}.

(** The loop [for stock in data], which runs over the column labels. *)
Fixpoint adf_loop (data : DataFrame) (stocks : list string)
    (adfuller_stats : list AdfRow) : result (list AdfRow) :=
  match stocks with
  | [] => Ok adfuller_stats
  | stock :: rest =>
      col <- getitem data stock;;
      adf <- adfuller (dropna col);;
      adf_loop data rest (adfuller_stats ++ [adf_row stock adf])
  end.

Definition ts_stationarity (data : DataFrame) : result (list AdfRow) :=
  adf_loop data (columns data) [].

End WithLibraries.

End AnalysisTools.

(** ** data_loader.py *)

Module DataLoader.

(** A naive [datetime], as the number of microseconds since
    0001-01-01 00:00:00; the last one is 9999-12-31 23:59:59.999999, on day
    3652059 of the calendar. *)
Definition datetime := Z.

Definition US_PER_DAY : Z := 86400000000.
Definition MAX_ORDINAL : Z := 3652059.
Definition MAX_DELTA_DAYS : Z := 999999999.

Definition datetime_ok (t : Z) : bool :=
  (0 <=? t)%Z && (t <? MAX_ORDINAL * US_PER_DAY)%Z.

(** [timedelta(days=d)], in microseconds. *)
Definition timedelta (days : Z) : result Z :=
  if ((- MAX_DELTA_DAYS <=? days) && (days <=? MAX_DELTA_DAYS))%Z
  then Ok (days * US_PER_DAY)%Z
  else Raise (mk_exn OverflowError "days; must have magnitude <= 999999999").

(** [t - delta] *)
Definition datetime_sub (t : datetime) (delta : Z) : result datetime :=
  if datetime_ok (t - delta) then Ok (t - delta)%Z
  else Raise (mk_exn OverflowError "date value out of range").

(** One call [yf.download(tickers, start=start, end=end)]. *)
Record request := mk_request {
  req_tickers : list string;
  req_start : datetime;
  req_end : datetime
}.

(** What the function reads and writes besides its arguments: the clock
    behind [datetime.today()], the requests sent to the provider and the
    lines printed. *)
Record World := mk_world {
  clock : datetime;
  requests : list request;
  stdout : list string
}.

Definition send (r : request) (w : World) : World :=
  {| clock := clock w; requests := requests w ++ [r]; stdout := stdout w |}.

Definition print (line : string) (w : World) : World :=
  {| clock := clock w; requests := requests w; stdout := stdout w ++ [line] |}.

(** The frame the provider answers with.  Its column axis has one level or
    several (for a list of tickers yfinance labels each column with a price
    field and a ticker, on two levels named Price and Ticker): the names of
    the levels, and for each column its label on every level and its
    values. *)
Record Downloaded := mk_downloaded {
  dl_index : list Z;
  dl_index_name : option string;
  dl_level_names : list (option string);
  dl_columns : list (list string * Series)
}.

(** A frame of one level of columns, as the analysis takes it. *)
Definition of_flat (data : DataFrame) : Downloaded :=
  {| dl_index := index data;
     dl_index_name := index_name data;
     dl_level_names := [columns_name data];
     dl_columns := (fun c => ([c.1], c.2)) <$> cols data |}.

(** [data.index.name = None; data.columns.name = None].  The name of an
    axis of one level is the name of that level.  On an axis of several
    levels the names of the levels are [columns.names], which the
    assignment to [columns.name] leaves as they are. *)
Definition strip_names (data : Downloaded) : Downloaded :=
  {| dl_index := dl_index data;
     dl_index_name := None;
     dl_level_names := match dl_level_names data with
                       | [_] => [None]
                       | names => names
                       end;
     dl_columns := dl_columns data |}.

Definition DEFAULT_DAYS : Z := 200.

Section WithProvider.

(** yfinance: the answer of the provider to a request, a frame or an
    exception. *)
Variable download : request -> result Downloaded.

(** [stock_data(tickers, days=200)]: the value returned is a frame or
    [None]; [days] is [None] when the caller leaves it out. *)
Definition stock_data (tickers : list string) (days : option Z) (w : World)
  : result (option Downloaded) * World :=
  let days := default DEFAULT_DAYS days in
  let end_ := clock w in
  match (delta <- timedelta days;; datetime_sub end_ delta) with
  | Raise e => (Raise e, w)
  | Ok start =>
      let r := mk_request tickers start end_ in
      let w := send r w in
      (* try: ... except Exception as E: ... *)
      match download r with
      | Ok data => (Ok (Some (strip_names data)), w)
      | Raise E =>
          if is_Exception E
          then (Ok None, print ("Error al descargar datos: " ++ exn_str E) w)
          else (Raise E, w)
      end
  end.

End WithProvider.

End DataLoader.

(** ** visualisation.py *)

Module Visualisation.

(** What a plotting call puts on an Axes. *)
Inductive drawing :=
  | Plot (x : list Z) (y : Series) (lbl : option string)
  | PlotSeries (y : Series)
  | Hist (x : Series)
  | Boxplot (x : Series)
  | Acf (x : Series) (lags : Z)
  | Pacf (x : Series) (lags : Z).

(** The state of one Axes that the module touches.  [axis_on] is what
    [axis('off')] clears: a cell with it cleared shows no frame, ticks or
    labels. *)
Record Axes := mk_axes {
  artists : list drawing;
  title : option string;
  xlabel : option string;
  ylabel : option string;
  xticks : option (list Z);
  axis_on : bool;
  grid_on : bool;
  legend_on : bool
}.

Definition fresh : Axes := mk_axes [] None None None None true false false.

Definition add_artist (d : drawing) (ax : Axes) : Axes :=
  mk_axes (artists ax ++ [d]) (title ax) (xlabel ax) (ylabel ax) (xticks ax)
          (axis_on ax) (grid_on ax) (legend_on ax).
Definition set_title (s : string) (ax : Axes) : Axes :=
  mk_axes (artists ax) (Some s) (xlabel ax) (ylabel ax) (xticks ax)
          (axis_on ax) (grid_on ax) (legend_on ax).
Definition set_xlabel (s : string) (ax : Axes) : Axes :=
  mk_axes (artists ax) (title ax) (Some s) (ylabel ax) (xticks ax)
          (axis_on ax) (grid_on ax) (legend_on ax).
Definition set_ylabel (s : string) (ax : Axes) : Axes :=
  mk_axes (artists ax) (title ax) (xlabel ax) (Some s) (xticks ax)
          (axis_on ax) (grid_on ax) (legend_on ax).
Definition set_xticks (t : list Z) (ax : Axes) : Axes :=
  mk_axes (artists ax) (title ax) (xlabel ax) (ylabel ax) (Some t)
          (axis_on ax) (grid_on ax) (legend_on ax).
Definition axis_off (ax : Axes) : Axes :=
  mk_axes (artists ax) (title ax) (xlabel ax) (ylabel ax) (xticks ax)
          false (grid_on ax) (legend_on ax).
Definition grid (ax : Axes) : Axes :=
  mk_axes (artists ax) (title ax) (xlabel ax) (ylabel ax) (xticks ax)
          (axis_on ax) true (legend_on ax).
Definition legend (ax : Axes) : Axes :=
  mk_axes (artists ax) (title ax) (xlabel ax) (ylabel ax) (xticks ax)
          (axis_on ax) (grid_on ax) true.

(** The second value of [plt.subplots(nrows, ncols)], with its default
    [squeeze=True]: one Axes for a 1x1 grid, a 1-D array when one dimension
    is 1, a 2-D array otherwise. *)
Inductive ndaxes :=
  | AxesObj (ax : Axes)
  | Axes1D (l : list Axes)
  | Axes2D (rows : list (list Axes)).

Definition subplots (nrows ncols : nat) : result ndaxes :=
  if decide (nrows = 0)
  then Raise (mk_exn ValueError "Number of rows must be a positive integer, not 0")
  else if decide (ncols = 0)
  then Raise (mk_exn ValueError "Number of columns must be a positive integer, not 0")
  else if decide (nrows = 1 /\ ncols = 1) then Ok (AxesObj fresh)
  else if decide (nrows = 1) then Ok (Axes1D (replicate ncols fresh))
  else if decide (ncols = 1) then Ok (Axes1D (replicate nrows fresh))
  else Ok (Axes2D (replicate nrows (replicate ncols fresh))).

(** [axes.flatten()] *)
Definition flatten (a : ndaxes) : result (list Axes) :=
  match a with
  | AxesObj _ => Raise (mk_exn AttributeError "'Axes' object has no attribute 'flatten'")
  | Axes1D l => Ok l
  | Axes2D rows => Ok (concat rows)
  end.

(** [axes[i]] on a list or a 1-D array *)
Definition item (axes : list Axes) (i : nat) : result Axes :=
  match axes !! i with
  | Some ax => Ok ax
  | None => Raise (mk_exn IndexError "index out of bounds for axis 0")
  end.

(** [axes[i, j]] *)
Definition item2 (axes : ndaxes) (i j : nat) : result Axes :=
  match axes with
  | AxesObj _ => Raise (mk_exn TypeError "'Axes' object is not subscriptable")
  | Axes1D _ =>
      Raise (mk_exn IndexError
        "too many indices for array: array is 1-dimensional, but 2 were indexed")
  | Axes2D rows =>
      match rows !! i with
      | None => Raise (mk_exn IndexError "index out of bounds for axis 0")
      | Some row =>
          match row !! j with
          | None => Raise (mk_exn IndexError "index out of bounds for axis 1")
          | Some ax => Ok ax
          end
      end
  end.

(** The Axes at [i, j] is an object the array points to: a call on it
    changes what the array shows at [i, j]. *)
Definition store2 (axes : ndaxes) (i j : nat) (ax : Axes) : ndaxes :=
  match axes with
  | Axes2D rows => Axes2D (alter (fun row => <[j := ax]> row) i rows)
  | other => other
  end.

(** [enumerate(l)] *)
Definition enumerate {A} (l : list A) : list (nat * A) :=
  zip (seq 0 (length l)) l.

Record Figure := mk_figure {
  fig_axes : ndaxes;
  suptitle : option string
}.

Section WithLibraries.

(** matplotlib and statsmodels can refuse what they are asked to draw (an
    empty or all-missing column, too few observations): [refuses d] is the
    exception raised then. *)
Variable refuses : drawing -> option exn.

(** statsmodels: [seasonal_decompose(x, model=..., period=...)] returns the
    trend, seasonal and residual components, or raises. *)
Variable seasonal_decompose :
  Series -> string -> Z -> result (Series * Series * Series).

Definition draw (d : drawing) (ax : Axes) : result Axes :=
  match refuses d with
  | Some e => Raise e
  | None => Ok (add_artist d ax)
  end.

(** [axes[i].method(...)]: index, then call. *)
Definition on_item (axes : list Axes) (i : nat) (f : Axes -> result Axes)
  : result (list Axes) :=
  ax <- item axes i;;
  ax <- f ax;;
  Ok (<[i := ax]> axes).

(** [axes[i, j].method(...)] *)
Definition on_item2 (axes : ndaxes) (i j : nat) (f : Axes -> result Axes)
  : result ndaxes :=
  ax <- item2 axes i j;;
  ax <- f ax;;
  Ok (store2 axes i j ax).

(** *** tracking_plot *)

Fixpoint plot_lines (data : DataFrame) (tickers : list string) (ax : Axes)
  : result Axes :=
  match tickers with
  | [] => Ok ax
  | t :: rest =>
      y <- getitem data t;;
      ax <- draw (Plot (index data) y (Some t)) ax;;
      plot_lines data rest ax
  end.

Definition tracking_plot (data : DataFrame) (tickers : list string)
    (title xlabel ylabel : string) : result Axes :=
  ax <- plot_lines data tickers fresh;;
  Ok (grid (legend (set_ylabel ylabel (set_xlabel xlabel (set_title title ax))))).

(** *** plot_histograms *)

Fixpoint hist_loop (data : DataFrame) (its : list (nat * string))
    (axes : list Axes) : result (list Axes) :=
  match its with
  | [] => Ok axes
  | (i, ticker) :: rest =>
      axes <-
        (if decide (ticker ∈ columns data) then
           axes <- on_item axes i (fun ax =>
                     x <- getitem data ticker;; draw (Hist x) ax);;
           axes <- on_item axes i (fun ax =>
                     Ok (set_title (ticker ++ " Returns") ax));;
           axes <- on_item axes i (fun ax => Ok (set_xlabel "Return" ax));;
           on_item axes i (fun ax => Ok (set_ylabel "Frequency" ax))
         else
           on_item axes i (fun ax => Ok (axis_off ax)));;
      hist_loop data rest axes
  end.

(** [for j in range(len(tickers), len(axes)): axes[j].axis('off')] *)
Fixpoint off_loop (js : list nat) (axes : list Axes) : result (list Axes) :=
  match js with
  | [] => Ok axes
  | j :: rest =>
      axes <- on_item axes j (fun ax => Ok (axis_off ax));;
      off_loop rest axes
  end.

Definition plot_histograms (data : DataFrame) (tickers : list string)
  : result (list Axes) :=
  let n := length tickers in
  let rows := (n + 2) / 3 in
  let cols := 3 in
  axes <- subplots rows cols;;
  axes <- flatten axes;;
  axes <- hist_loop data (enumerate tickers) axes;;
  off_loop (seq (length tickers) (length axes - length tickers)) axes.

(** *** plot_boxplots *)

Fixpoint box_loop (data : DataFrame) (its : list (nat * string))
    (axes : list Axes) : result (list Axes) :=
  match its with
  | [] => Ok axes
  | (i, ticker) :: rest =>
      axes <-
        (if decide (ticker ∈ columns data) then
           axes <- on_item axes i (fun ax =>
                     x <- getitem data ticker;; draw (Boxplot (dropna x)) ax);;
           axes <- on_item axes i (fun ax =>
                     Ok (set_title (ticker ++ " Returns") ax));;
           axes <- on_item axes i (fun ax => Ok (set_ylabel "Return" ax));;
           on_item axes i (fun ax => Ok (set_xticks [] ax))
         else
           on_item axes i (fun ax => Ok (axis_off ax)));;
      box_loop data rest axes
  end.

Definition plot_boxplots (data : DataFrame) (tickers : list string)
  : result (list Axes) :=
  let n := length tickers in
  let rows := (n + 2) / 3 in
  let cols := 3 in
  axes <- subplots rows cols;;
  axes <- flatten axes;;
  axes <- box_loop data (enumerate tickers) axes;;
  off_loop (seq (length tickers) (length axes - length tickers)) axes.

(** *** ts_decomposition *)

Definition PERIOD : Z := 30.
Definition LAGS : Z := 25.

Fixpoint decomposition_loop (data : DataFrame) (its : list (nat * string))
    (axes : ndaxes) : result ndaxes :=
  match its with
  | [] => Ok axes
  | (i, ticker) :: rest =>
      x <- getitem data ticker;;
      decomposition <- seasonal_decompose (dropna x) "additive" PERIOD;;
      let '(trend, seasonal, resid) := decomposition in
      axes <- on_item2 axes i 0 (draw (PlotSeries trend));;
      axes <- on_item2 axes i 0 (fun ax => Ok (set_title (ticker ++ " - Trend") ax));;
      axes <- on_item2 axes i 0 (fun ax => Ok (grid ax));;
      axes <- on_item2 axes i 1 (draw (PlotSeries seasonal));;
      axes <- on_item2 axes i 1 (fun ax => Ok (set_title (ticker ++ " - Seasonal") ax));;
      axes <- on_item2 axes i 1 (fun ax => Ok (grid ax));;
      axes <- on_item2 axes i 2 (draw (PlotSeries resid));;
      axes <- on_item2 axes i 2 (fun ax => Ok (set_title (ticker ++ " - Residuals") ax));;
      axes <- on_item2 axes i 2 (fun ax => Ok (grid ax));;
      decomposition_loop data rest axes
  end.

Definition ts_decomposition (data : DataFrame) (tickers : list string)
  : result Figure :=
  let n := length tickers in
  axes <- subplots n 3;;
  axes <- decomposition_loop data (enumerate (columns data)) axes;;
  Ok (mk_figure axes (Some "Seasonal Decomposition of Stock Prices")).

(** *** acf_pacf *)

Fixpoint acf_pacf_loop (data : DataFrame) (its : list (nat * string))
    (axes : ndaxes) : result ndaxes :=
  match its with
  | [] => Ok axes
  | (i, ticker) :: rest =>
      x <- getitem data ticker;;
      axes <- on_item2 axes i 0 (draw (Acf (dropna x) LAGS));;
      axes <- on_item2 axes i 0 (fun ax =>
                Ok (set_title (ticker ++ " - Autocorrelation (ACF)") ax));;
      x <- getitem data ticker;;
      axes <- on_item2 axes i 1 (draw (Pacf (dropna x) LAGS));;
      axes <- on_item2 axes i 1 (fun ax =>
                Ok (set_title (ticker ++ " - Partial Autocorrelation (PACF)") ax));;
      acf_pacf_loop data rest axes
  end.

Definition acf_pacf (data : DataFrame) (tickers : list string) : result Figure :=
  let n := length tickers in
  axes <- subplots n 2;;
  axes <- acf_pacf_loop data (enumerate (columns data)) axes;;
  Ok (mk_figure axes (Some "ACF and PACF for Stock Returns")).

(** *** moving_averages *)

Fixpoint ma_loop (data ma ema : DataFrame) (its : list (nat * string))
    (axes : list Axes) : result (list Axes) :=
  match its with
  | [] => Ok axes
  | (i, ticker) :: rest =>
      axes <- on_item axes i (fun ax =>
                y <- getitem data ticker;;
                draw (Plot (index data) y (Some (ticker ++ " - Prices")%string)) ax);;
      axes <- on_item axes i (fun ax =>
                y <- getitem ma ticker;;
                draw (Plot (index ma) y (Some (ticker ++ " - MA")%string)) ax);;
      axes <- on_item axes i (fun ax =>
                y <- getitem ema ticker;;
                draw (Plot (index ema) y (Some (ticker ++ " - EMA")%string)) ax);;
      axes <- on_item axes i (fun ax =>
                Ok (set_title (ticker ++ " - Moving Averages") ax));;
      axes <- on_item axes i (fun ax => Ok (legend ax));;
      axes <- on_item axes i (fun ax => Ok (grid ax));;
      ma_loop data ma ema rest axes
  end.

Definition moving_averages (data ma ema : DataFrame) : result (list Axes) :=
  let n := length (columns data) in
  axes <- subplots n 1;;
  axes <- (if decide (n = 1)
           then match axes with
                | AxesObj ax => Ok [ax]
                | _ => Raise (mk_exn AttributeError "'numpy.ndarray' object has no attribute 'plot'")
                end
           else match axes with
                | Axes1D l => Ok l
                | AxesObj _ => Raise (mk_exn TypeError "'Axes' object is not subscriptable")
                | Axes2D _ => Raise (mk_exn AttributeError "'numpy.ndarray' object has no attribute 'plot'")
                end);;
  ma_loop data ma ema (enumerate (columns data)) axes.

End WithLibraries.

End Visualisation.
(** ** Facts about float64 comparisons *)

Module F64Facts.
Import F64.

Ltac sf_cases :=
  repeat match goal with
  | s : bool |- _ => destruct s
  | |- context [(?a ?= ?b)%Z] => destruct (Z.compare_spec a b)
  | |- context [PosDef.Pos.compare_cont Eq ?a ?b] =>
      change (PosDef.Pos.compare_cont Eq a b) with (Pos.compare a b);
      destruct (Pos.compare_spec a b)
  end.

Ltac sf_close :=
  simpl; split; intros; try reflexivity; try discriminate; try lia.

Lemma SFleb_rank f g :
  f <> S754_nan -> g <> S754_nan ->
  SFleb f g = true <-> lex_le (rank f) (rank g).
Proof.
  unfold SFleb, SFcompare, lex_le, rank.
  destruct f, g; intros Hf Hg; try congruence; sf_cases; sf_close.
Qed.

Lemma SFltb_rank f g :
  f <> S754_nan -> g <> S754_nan ->
  SFltb f g = true <-> lex_lt (rank f) (rank g).
Proof.
  unfold SFltb, SFcompare, lex_lt, rank.
  destruct f, g; intros Hf Hg; try congruence; sf_cases; sf_close.
Qed.

Lemma SFeqb_self f : SFeqb f f = true <-> f <> S754_nan.
Proof.
  unfold SFeqb, SFcompare.
  destruct f; sf_cases; simpl; split; intros; try congruence; try lia.
Qed.

Lemma notna_spec x : notna x = true <-> Prim2SF x <> S754_nan.
Proof.
  unfold notna, isnan. rewrite negb_involutive, FloatAxioms.eqb_spec.
  apply SFeqb_self.
Qed.

Lemma leb_rank x y :
  notna x = true -> notna y = true ->
  (x <=? y)%float = true <-> lex_le (rank (Prim2SF x)) (rank (Prim2SF y)).
Proof.
  rewrite !notna_spec, leb_spec. apply SFleb_rank.
Qed.

Lemma ltb_rank x y :
  notna x = true -> notna y = true ->
  (x <? y)%float = true <-> lex_lt (rank (Prim2SF x)) (rank (Prim2SF y)).
Proof.
  rewrite !notna_spec, ltb_spec. apply SFltb_rank.
Qed.

Ltac by_rank :=
  unfold lex_le, lex_lt in *;
  repeat match goal with
  | |- context [rank ?f] =>
      let a := fresh "a" in let b := fresh "b" in let c := fresh "c" in
      destruct (rank f) as [[a b] c]
  end; lia.

Lemma leb_refl x : notna x = true -> (x <=? x)%float = true.
Proof. intros Hx. apply leb_rank; auto. by_rank. Qed.

Lemma leb_trans x y z :
  notna x = true -> notna y = true -> notna z = true ->
  (x <=? y)%float = true -> (y <=? z)%float = true -> (x <=? z)%float = true.
Proof.
  intros Hx Hy Hz. rewrite !leb_rank by auto. by_rank.
Qed.

Lemma ltb_leb x y :
  notna x = true -> notna y = true ->
  (x <? y)%float = true -> (x <=? y)%float = true.
Proof.
  intros Hx Hy. rewrite leb_rank, ltb_rank by auto. by_rank.
Qed.

Lemma not_ltb_leb x y :
  notna x = true -> notna y = true ->
  (x <? y)%float = false -> (y <=? x)%float = true.
Proof.
  intros Hx Hy Hlt. apply leb_rank; auto.
  assert (~ lex_lt (rank (Prim2SF x)) (rank (Prim2SF y))) as Hn.
  { intros H. apply ltb_rank in H; auto. congruence. }
  revert Hn. by_rank.
Qed.


End F64Facts.

(** ** Facts about analysis_tools.py *)

Module AnalysisFacts.
Import F64 F64Facts AnalysisTools.

(** *** Selection of columns *)

Lemma filter_label_absent (l : list (string * Series)) t :
  t ∉ l.*1 -> filter (fun c => c.1 = t) l = [].
Proof.
  induction l as [|[u s] l IH]; simpl; intros Hnot; [done|].
  apply not_elem_of_cons in Hnot as [Hne Hnot].
  rewrite filter_cons. simpl. rewrite decide_False by congruence. auto.
Qed.

Lemma filter_label_unique (l : list (string * Series)) t :
  NoDup (l.*1) -> t ∈ l.*1 ->
  exists s, filter (fun c => c.1 = t) l = [(t, s)] /\ (t, s) ∈ l.
Proof.
  induction l as [|[u s] l IH]; simpl; intros Hnd Hin.
  - by apply elem_of_nil in Hin.
  - apply NoDup_cons in Hnd as [Hu Hnd].
    rewrite filter_cons. simpl. destruct (decide (u = t)) as [->|Hne].
    + exists s. split; [|left]. f_equal.
      by apply filter_label_absent.
    + apply elem_of_cons in Hin as [->|Hin]; [done|].
      destruct (IH Hnd Hin) as (s' & Heq & Hel).
      exists s'. split; [done|by right].
Qed.

Lemma dropna_notna s : Forall (fun x => notna x = true) (dropna s).
Proof.
  apply Forall_forall. intros x Hx.
  apply list_elem_of_In, List.filter_In in Hx. tauto.
Qed.

(** *** min and max of the values that are not missing *)

Lemma fold_fmin_spec xs : forall x,
  Forall (fun y => notna y = true) (x :: xs) ->
  let m := fold_left fmin xs x in
  notna m = true /\ m ∈ x :: xs /\
  Forall (fun y => (m <=? y)%float = true) (x :: xs).
Proof.
  induction xs as [|y ys IH]; intros x Hall; cbv zeta; simpl.
  - apply Forall_cons in Hall as [Hx _].
    repeat split; [done|left|]. constructor; [by apply leb_refl|constructor].
  - apply Forall_cons in Hall as [Hx Hall].
    pose proof Hall as Hall'. apply Forall_cons in Hall' as [Hy Hys].
    replace (fmin x y) with (if (x <? y)%float then x else y) by reflexivity.
    destruct (x <? y)%float eqn:Hlt.
    + destruct (IH x (Forall_cons_2 _ _ _ Hx Hys)) as (Hm & Hin & Hle).
      apply Forall_cons in Hle as [Hmx Hle].
      repeat split; [done| |].
      * apply elem_of_cons in Hin as [->|Hin]; [left|right; by right].
      * constructor; [done|]. constructor; [|done].
        eapply leb_trans; [done|exact Hx|done|done|by apply ltb_leb].
    + destruct (IH y Hall) as (Hm & Hin & Hle).
      repeat split; [done|by right|].
      constructor; [|done].
      apply Forall_cons in Hle as [Hmy _].
      eapply leb_trans; [done|exact Hy|done|done|by apply not_ltb_leb].
Qed.

Lemma fold_fmax_spec xs : forall x,
  Forall (fun y => notna y = true) (x :: xs) ->
  let m := fold_left fmax xs x in
  notna m = true /\ m ∈ x :: xs /\
  Forall (fun y => (y <=? m)%float = true) (x :: xs).
Proof.
  induction xs as [|y ys IH]; intros x Hall; cbv zeta; simpl.
  - apply Forall_cons in Hall as [Hx _].
    repeat split; [done|left|]. constructor; [by apply leb_refl|constructor].
  - apply Forall_cons in Hall as [Hx Hall].
    pose proof Hall as Hall'. apply Forall_cons in Hall' as [Hy Hys].
    replace (fmax x y) with (if (y <? x)%float then x else y) by reflexivity.
    destruct (y <? x)%float eqn:Hlt.
    + destruct (IH x (Forall_cons_2 _ _ _ Hx Hys)) as (Hm & Hin & Hle).
      apply Forall_cons in Hle as [Hxm Hle].
      repeat split; [done| |].
      * apply elem_of_cons in Hin as [->|Hin]; [left|right; by right].
      * constructor; [done|]. constructor; [|done].
        eapply leb_trans; [done|exact Hx|done|by apply ltb_leb|done].
    + destruct (IH y Hall) as (Hm & Hin & Hle).
      repeat split; [done|by right|].
      constructor; [|done].
      apply Forall_cons in Hle as [Hym _].
      eapply leb_trans; [done|exact Hy|done|by apply not_ltb_leb|done].
Qed.

(** On a column with at least one value, min and max are values of the
    column, every value lies between them, and so min <= max. *)
Lemma nanmin_nanmax_bounds s :
  dropna s <> [] ->
  nanmin s ∈ dropna s /\ nanmax s ∈ dropna s /\
  (nanmin s <=? nanmax s)%float = true /\
  Forall (fun x => (nanmin s <=? x)%float = true /\ (x <=? nanmax s)%float = true)
         (dropna s).
Proof.
  unfold nanmin, nanmax. pose proof (dropna_notna s) as Hall.
  destruct (dropna s) as [|x xs]; [done|]. intros _.
  destruct (fold_fmin_spec xs x Hall) as (Hm & Hmin & Hle).
  destruct (fold_fmax_spec xs x Hall) as (HM & Hmax & Hge).
  repeat split; [done|done| |].
  - pose proof Hle as Hle'. pose proof Hge as Hge'.
    apply Forall_cons in Hle' as [H1 _]. apply Forall_cons in Hge' as [H2 _].
    apply Forall_cons in Hall as [Hx _].
    by eapply leb_trans; [| exact Hx | | |].
  - apply Forall_forall. intros y Hy.
    rewrite Forall_forall in Hle. rewrite Forall_forall in Hge. auto.
Qed.

(** *** descriptive_stats *)

Section DescriptiveStats.

Variable std : Series -> float.
Variable quantile : float -> Series -> float.
Variable skew : Series -> float.
Variable kurt : Series -> float.

Local Abbreviation describe_1d := (AnalysisTools.describe_1d std quantile).
Local Abbreviation descriptive_stats :=
  (AnalysisTools.descriptive_stats std quantile skew kurt).

(** The row of the result that a selected column turns into. *)
Definition stats_row (c : string * Series) : StatsRow :=
  mk_stats c.1 (describe_1d c.2) (skew c.2) (kurt c.2).

Definition valid (data : DataFrame) (tickers : list string) : list string :=
  filter (fun t => t ∈ columns data) tickers.

Lemma add_moments_rows frame :
  add_moments (describe_T std quantile frame) (frame_skew skew frame)
              (frame_kurt kurt frame)
  = stats_row <$> frame.
Proof.
  unfold add_moments, describe_T, frame_skew, frame_kurt.
  induction frame as [|c frame IH]; [done|].
  cbn. f_equal. exact IH.
Qed.

Lemma select_valid data tickers :
  select data (valid data tickers)
  = Ok (flat_map (fun t => filter (fun c => c.1 = t) (cols data))
                 (valid data tickers)).
Proof.
  unfold select. rewrite decide_True; [done|].
  apply Forall_forall. intros t Ht.
  by apply list_elem_of_filter in Ht as [Ht _].
Qed.

Lemma descriptive_stats_unfold data tickers :
  descriptive_stats data tickers
  = if decide (valid data tickers = []) then Raise no_valid_tickers
    else Ok (stats_row <$>
             flat_map (fun t => filter (fun c => c.1 = t) (cols data))
                      (valid data tickers)).
Proof.
  unfold AnalysisTools.descriptive_stats. fold (valid data tickers).
  destruct (decide (valid data tickers = [])); [done|].
  rewrite select_valid. cbn. by rewrite add_moments_rows.
Qed.

Lemma valid_nil_iff data tickers :
  valid data tickers = [] <-> Forall (fun t => t ∉ columns data) tickers.
Proof.
  unfold valid. induction tickers as [|t ts IH]; [by split|].
  rewrite filter_cons, Forall_cons. destruct (decide (t ∈ columns data)).
  - split; [done|]. intros [Hn _]. done.
  - rewrite IH. tauto.
Qed.

Lemma valid_not_nil_iff data tickers :
  valid data tickers <> [] <-> Exists (fun t => t ∈ columns data) tickers.
Proof.
  rewrite valid_nil_iff.
  split.
  - intros Hn. destruct (decide (Exists (fun t => t ∈ columns data) tickers)) as [|Hno]; [done|].
    exfalso. apply Hn. apply Forall_forall. intros t Ht Hin.
    apply Hno. apply Exists_exists. eauto.
  - intros Hex Hall. apply Exists_exists in Hex as (t & Ht & Hin).
    rewrite Forall_forall in Hall. by apply (Hall t Ht).
Qed.

(** On a Table every valid ticker selects exactly its own column. *)
Lemma select_Table_labels data (ts : list string) :
  Table data -> Forall (fun t => t ∈ columns data) ts ->
  (flat_map (fun t => filter (fun c => c.1 = t) (cols data)) ts).*1 = ts.
Proof.
  intros Hnd. induction 1 as [|t ts Ht _ IH]; [done|].
  cbn [flat_map]. rewrite fmap_app, IH.
  destruct (filter_label_unique (cols data) t Hnd Ht) as (s & -> & _).
  done.
Qed.

Lemma valid_Forall data tickers :
  Forall (fun t => t ∈ columns data) (valid data tickers).
Proof.
  apply Forall_forall. intros t Ht.
  by apply list_elem_of_filter in Ht as [Ht _].
Qed.

Lemma stats_row_labels (frame : list (string * Series)) :
  label <$> (stats_row <$> frame) = frame.*1.
Proof. rewrite <- list_fmap_compose. done. Qed.

(** C1: the call raises the ValueError of its safety check exactly when no
    requested ticker is a column of the table, and the error is the outcome
    of the call, handed to the caller; when some requested ticker is a
    column the call returns a result and raises nothing. *)
Theorem descriptive_stats_ValueError_iff_no_overlap
    (data : DataFrame) (tickers : list string) :
  (Forall (fun t => t ∉ columns data) tickers
     <-> descriptive_stats data tickers = Raise no_valid_tickers)
  /\ (Exists (fun t => t ∈ columns data) tickers
     <-> is_Ok (descriptive_stats data tickers)).
Proof.
  rewrite descriptive_stats_unfold, <- valid_nil_iff, <- valid_not_nil_iff.
  destruct (decide (valid data tickers = [])) as [He|He].
  - split; split; try done. intros [rows Hrows]. discriminate.
  - split; split; try done.
    + intros _. by eexists.
Qed.

(** C10: on a table, when some requested ticker is a column, the rows of the
    result carry the requested tickers that are columns, in the order and
    with the repetitions of the ticker list: a column requested k times has
    k rows. *)
Theorem descriptive_stats_rows_follow_ticker_list
    (data : DataFrame) (tickers : list string) :
  Table data ->
  Exists (fun t => t ∈ columns data) tickers ->
  exists rows,
    descriptive_stats data tickers = Ok rows
    /\ label <$> rows = filter (fun t => t ∈ columns data) tickers
    /\ forall t, t ∈ columns data ->
         length (filter (fun r => label r = t) rows)
         = length (filter (fun u => u = t) tickers).
Proof.
  intros Hnd Hex. apply valid_not_nil_iff in Hex.
  rewrite descriptive_stats_unfold, decide_False by done.
  eexists. split; [reflexivity|].
  assert (label <$> (stats_row <$>
            flat_map (fun t => filter (fun c => c.1 = t) (cols data))
                     (valid data tickers)) = valid data tickers) as Hlab.
  { rewrite stats_row_labels. apply select_Table_labels; [done|apply valid_Forall]. }
  split; [exact Hlab|].
  intros t Ht.
  set (rows := stats_row <$> _) in *.
  transitivity (length (filter (fun u => u = t) (label <$> rows))).
  { clear. induction rows as [|r rows IH]; [done|].
    rewrite fmap_cons, !filter_cons. destruct (decide (label r = t)); simpl; by rewrite IH. }
  rewrite Hlab. unfold valid. clear -Ht.
  induction tickers as [|u us IH]; [done|].
  rewrite !filter_cons. destruct (decide (u = t)) as [->|Hne].
  - rewrite decide_True by done. rewrite filter_cons, decide_True by done.
    simpl. by rewrite IH.
  - destruct (decide (u ∈ columns data)); [|done].
    rewrite filter_cons, decide_False by done. done.
Qed.

(** C2 (as amended): on a table, for a ticker list without repetitions that
    names at least one column, the result has exactly one row per requested
    ticker that is a column; each row summarises the column it is labelled
    with, and when that column has at least one value that is not missing
    its min and max are values of the column, every value lies between them
    and min <= max.  (Nothing is stated about where the float64 mean lies.) *)
Theorem descriptive_stats_one_row_per_ticker
    (data : DataFrame) (tickers : list string) :
  Table data ->
  NoDup tickers ->
  Exists (fun t => t ∈ columns data) tickers ->
  exists rows,
    descriptive_stats data tickers = Ok rows
    /\ NoDup (label <$> rows)
    /\ (forall t, t ∈ label <$> rows <-> t ∈ tickers /\ t ∈ columns data)
    /\ Forall (fun r => exists s,
         (label r, s) ∈ cols data
         /\ summary r = describe_1d s
         /\ (dropna s <> [] ->
             d_min (summary r) ∈ dropna s
             /\ d_max (summary r) ∈ dropna s
             /\ (d_min (summary r) <=? d_max (summary r))%float = true
             /\ Forall (fun x => (d_min (summary r) <=? x)%float = true
                                 /\ (x <=? d_max (summary r))%float = true)
                       (dropna s))) rows.
Proof.
  intros Hnd Hts Hex. apply valid_not_nil_iff in Hex.
  rewrite descriptive_stats_unfold, decide_False by done.
  eexists. split; [reflexivity|].
  assert (label <$> (stats_row <$>
            flat_map (fun t => filter (fun c => c.1 = t) (cols data))
                     (valid data tickers)) = valid data tickers) as Hlab.
  { rewrite stats_row_labels. apply select_Table_labels; [done|apply valid_Forall]. }
  rewrite Hlab. split; [by apply NoDup_filter|].
  split.
  { intros t. unfold valid. rewrite list_elem_of_filter. tauto. }
  apply Forall_forall. intros r Hr.
  apply list_elem_of_fmap in Hr as ([t s] & -> & Hc).
  apply list_elem_of_In, in_flat_map in Hc as (u & _ & Hc).
  apply list_elem_of_In, list_elem_of_filter in Hc as [_ Hc].
  exists s. split; [done|]. split; [done|].
  intros Hne. cbn. by apply nanmin_nanmax_bounds.
Qed.

End DescriptiveStats.

(** *** ts_stationarity *)

Lemma list_find_label (l : list (string * Series)) t s :
  NoDup (l.*1) -> (t, s) ∈ l ->
  exists i, list_find (fun c => c.1 = t) l = Some (i, (t, s)).
Proof.
  induction l as [|[u w] l IH]; intros Hnd Hin.
  - by apply elem_of_nil in Hin.
  - cbn in Hnd. apply NoDup_cons in Hnd as [Hu Hnd].
    cbn. destruct (decide (u = t)) as [->|Hne].
    + apply elem_of_cons in Hin as [Heq|Hin].
      * injection Heq as ->. by exists 0.
      * exfalso. apply Hu. apply list_elem_of_fmap. by exists (t, s).
    + apply elem_of_cons in Hin as [Heq|Hin]; [congruence|].
      destruct (IH Hnd Hin) as [i ->]. by exists (S i).
Qed.

Lemma getitem_Table data t s :
  Table data -> (t, s) ∈ cols data -> getitem data t = Ok s.
Proof.
  intros Hnd Hin. unfold getitem.
  by destruct (list_find_label _ _ _ Hnd Hin) as [i ->].
Qed.

Lemma getitem_missing data t :
  t ∉ columns data -> getitem data t = Raise (mk_exn KeyError t).
Proof.
  intros Hnot. unfold getitem.
  destruct (list_find _ _) as [[i c]|] eqn:E; [|done].
  apply list_find_Some in E as (Hl & Hc & _).
  exfalso. apply Hnot. apply list_elem_of_fmap. exists c.
  split; [done|]. by apply list_elem_of_lookup_2 in Hl.
Qed.

Section Stationarity.

Variable adfuller : Series -> result (float * float).

Local Abbreviation ts_stationarity := (AnalysisTools.ts_stationarity adfuller).

(** The test on each column in turn, stopping at the first that raises. *)
Fixpoint adf_all (cs : list (string * Series)) : result (list AdfRow) :=
  match cs with
  | [] => Ok []
  | c :: cs =>
      adf <- adfuller (dropna c.2);;
      rows <- adf_all cs;;
      Ok (adf_row c.1 adf :: rows)
  end.

Lemma adf_loop_adf_all data cs : forall acc,
  Table data -> Forall (fun c => c ∈ cols data) cs ->
  adf_loop adfuller data (cs.*1) acc
  = (rows <- adf_all cs;; Ok (acc ++ rows)).
Proof.
  induction cs as [|[t s] cs IH]; intros acc Hnd Hin.
  - cbn. by rewrite app_nil_r.
  - apply Forall_cons in Hin as [Hc Hin].
    cbn [fmap list_fmap adf_loop adf_all fst snd].
    rewrite (getitem_Table _ _ _ Hnd Hc).
    cbn [bind]. destruct (adfuller (dropna s)) as [adf|e]; cbn [bind]; [|done].
    rewrite IH by done.
    destruct (adf_all cs) as [rows|e]; cbn [bind]; [|done].
    by rewrite <- app_assoc.
Qed.

Lemma ts_stationarity_adf_all data :
  Table data -> ts_stationarity data = adf_all (cols data).
Proof.
  intros Hnd. unfold AnalysisTools.ts_stationarity, columns.
  rewrite adf_loop_adf_all; [|done|by apply Forall_forall].
  by destruct (adf_all (cols data)).
Qed.

Lemma adf_all_Ok_iff cs :
  Forall (fun c => is_Ok (adfuller (dropna c.2))) cs <-> is_Ok (adf_all cs).
Proof.
  induction cs as [|c cs IH]; cbn.
  - split; [by eexists|constructor].
  - rewrite Forall_cons, IH. unfold is_Ok.
    destruct (adfuller (dropna c.2)) as [adf|e]; cbn.
    + destruct (adf_all cs) as [rows|e]; cbn.
      * split; [by eexists|]. intros _. split; by eexists.
      * split; [intros [_ [? ?]]; done|intros [? ?]; done].
    + split; [intros [[? ?] _]; done|intros [? ?]; done].
Qed.

Lemma adf_all_tickers cs rows :
  adf_all cs = Ok rows -> Ticker <$> rows = cs.*1.
Proof.
  revert rows. induction cs as [|c cs IH]; intros rows; cbn.
  - by intros [= <-].
  - destruct (adfuller (dropna c.2)) as [adf|e]; cbn; [|done].
    destruct (adf_all cs) as [rows'|e]; cbn; [|done].
    intros [= <-]. cbn. f_equal. by apply IH.
Qed.

(** What one row of the result says about the column it stands for: the
    threshold is the literal 0.05 of the source, read as Python reads it,
    as the float64 nearest to it. *)
#[warnings="-inexact-float"]
Definition row_of_column (c : string * Series) (r : AdfRow) : Prop :=
  exists stat p,
    adfuller (dropna c.2) = Ok (stat, p)
    /\ Ticker r = c.1 /\ ADF_Statistic r = stat /\ p_value r = p
    /\ (Stationary r = "Yes" <-> (p <? 0.05)%float = true)
    /\ (Stationary r = "No" <-> (p <? 0.05)%float = false).

Lemma adf_row_of_column c stat p :
  adfuller (dropna c.2) = Ok (stat, p) -> row_of_column c (adf_row c.1 (stat, p)).
Proof.
  intros H. exists stat, p. unfold adf_row, significance.
  repeat split; try done; cbn; destruct (p <? _)%float; done.
Qed.

Lemma adf_all_rows cs :
  match adf_all cs with
  | Ok rows => Forall2 row_of_column cs rows
  | Raise e => exists c, c ∈ cs /\ adfuller (dropna c.2) = Raise e
  end.
Proof.
  induction cs as [|c cs IH]; cbn; [constructor|].
  destruct (adfuller (dropna c.2)) as [[stat p]|e] eqn:E; cbn.
  - destruct (adf_all cs) as [rows|e]; cbn.
    + constructor; [by apply adf_row_of_column|done].
    + destruct IH as (c' & Hin & Hc'). exists c'. split; [by right|done].
  - exists c. split; [left|done].
Qed.

(** C3: on a table, every row of the result stands for one column: its
    statistic and p-value are those the Augmented Dickey-Fuller test returns
    on the column without its missing values, and its label is "Yes" exactly
    when the p-value is strictly below 0.05 and "No" otherwise.  When the
    call raises instead, it raises what the test raised on some column. *)
Theorem ts_stationarity_classifies_by_p_value (data : DataFrame) :
  Table data ->
  match ts_stationarity data with
  | Ok rows => Forall2 row_of_column (cols data) rows
  | Raise e => exists c, c ∈ cols data /\ adfuller (dropna c.2) = Raise e
  end.
Proof.
  intros Hnd. rewrite ts_stationarity_adf_all by done. apply adf_all_rows.
Qed.

(** C7: on a table with N columns the call returns a result exactly when
    the test returns on every column, and a result has exactly N rows, the
    i-th row carrying the label of the i-th column. *)
Theorem ts_stationarity_one_row_per_column (data : DataFrame) :
  Table data ->
  (Forall (fun c => is_Ok (adfuller (dropna c.2))) (cols data)
     <-> is_Ok (ts_stationarity data))
  /\ forall rows, ts_stationarity data = Ok rows ->
       length rows = length (columns data)
       /\ Ticker <$> rows = columns data.
Proof.
  intros Hnd. rewrite ts_stationarity_adf_all by done.
  split; [apply adf_all_Ok_iff|].
  intros rows Hrows. apply adf_all_tickers in Hrows.
  split; [|done].
  unfold columns. rewrite <- Hrows. by rewrite !length_fmap.
Qed.

End Stationarity.

End AnalysisFacts.

(** ** analysis_tools.py on sample data *)

Module AnalysisExamples.
Import F64 AnalysisTools AnalysisFacts.

(** The float64 nearest to 0.1. *)
Definition tenth : float := 0x1.999999999999ap-4%float.

Definition returns : DataFrame :=
  {| index := [20240102; 20240103; 20240104]%Z;
     index_name := None;
     columns_name := None;
     cols := [("AAPL", [tenth; tenth; tenth]);
              ("MSFT", [nan; 0.5; -0.25]%float);
              ("TSLA", [nan; nan; nan])] |}.

Lemma returns_Table : Table returns.
Proof. by apply (bool_decide_unpack _). Defined.

(** Stand-ins for the library routines, to run the functions on the sample:
    the statements above hold whatever the routines compute. *)
Definition stat0 (s : Series) : float := 0%float.
Definition quantile0 (q : float) (s : Series) : float := 0%float.

(** A test that needs two observations and reports the first as its
    statistic and the second as its p-value. *)
Definition adf2 (s : Series) : result (float * float) :=
  match s with
  | stat :: p :: _ => Ok (stat, p)
  | _ => Raise (mk_exn ValueError "sample size is too short")
  end.

Example ds_none_valid :
  descriptive_stats stat0 quantile0 stat0 stat0 returns ["GOOG"; "IBM"]
  = Raise no_valid_tickers.
Proof. reflexivity. Qed.

Example ds_empty_list :
  descriptive_stats stat0 quantile0 stat0 stat0 returns [] = Raise no_valid_tickers.
Proof. reflexivity. Qed.

(** The rows follow the ticker list, not the column order of the table. *)
Example ds_order_of_tickers :
  label <$> match descriptive_stats stat0 quantile0 stat0 stat0 returns
                    ["MSFT"; "GOOG"; "AAPL"] with
            | Ok rows => rows
            | Raise _ => []
            end
  = ["MSFT"; "AAPL"].
Proof. vm_compute. reflexivity. Qed.

(** float64: the mean of three times 0.1 is above their max. *)
Example mean_of_tenths_above_max :
  (nanmean [tenth; tenth; tenth] <=? nanmax [tenth; tenth; tenth])%float = false
  /\ nanmean [tenth; tenth; tenth] = 0x1.999999999999bp-4%float
  /\ nanmax [tenth; tenth; tenth] = tenth.
Proof. vm_compute. done. Qed.

(** A column whose values are all missing: min, mean and max are NaN, and
    no comparison between them holds. *)
Example all_missing_column :
  isnan (nanmin [nan; nan; nan]) = true
  /\ isnan (nanmean [nan; nan; nan]) = true
  /\ isnan (nanmax [nan; nan; nan]) = true
  /\ (nanmin [nan; nan; nan] <=? nanmean [nan; nan; nan])%float = false
  /\ (nanmean [nan; nan; nan] <=? nanmax [nan; nan; nan])%float = false.
Proof. vm_compute. done. Qed.

(** Ten values are summed in eight accumulators and two left over: the
    mean of ten times 0.1 is 0.1. *)
Example mean_of_ten_tenths :
  nanmean [tenth; tenth; tenth; tenth; tenth; tenth; tenth; tenth; tenth; tenth]
  = tenth.
Proof. vm_compute. reflexivity. Qed.

(** Of a zero and a negative zero the later is both min and max. *)
Example min_max_of_zeros :
  (1 / nanmin [0; -0] = neg_infinity /\ 1 / nanmax [0; -0] = neg_infinity)%float.
Proof. vm_compute. done. Qed.

Example significance_is_a_twentieth : (significance * 20 =? 1)%float = true.
Proof. vm_compute. reflexivity. Qed.

Lemma descriptive_stats_ValueError_sample :
  descriptive_stats stat0 quantile0 stat0 stat0 returns ["GOOG"]
    = Raise no_valid_tickers
  /\ is_Ok (descriptive_stats stat0 quantile0 stat0 stat0 returns ["GOOG"; "MSFT"]).
Proof.
  split.
  - apply (descriptive_stats_ValueError_iff_no_overlap
             stat0 quantile0 stat0 stat0 returns ["GOOG"]).
    by apply (bool_decide_unpack _).
  - apply (descriptive_stats_ValueError_iff_no_overlap
             stat0 quantile0 stat0 stat0 returns ["GOOG"; "MSFT"]).
    by apply (bool_decide_unpack _).
Defined.

Lemma descriptive_stats_rows_follow_ticker_list_sample :
  exists rows,
    descriptive_stats stat0 quantile0 stat0 stat0 returns
                      ["MSFT"; "GOOG"; "AAPL"; "MSFT"] = Ok rows
    /\ label <$> rows = ["MSFT"; "AAPL"; "MSFT"]
    /\ forall t, t ∈ columns returns ->
         length (filter (fun r => label r = t) rows)
         = length (filter (fun u => u = t) ["MSFT"; "GOOG"; "AAPL"; "MSFT"]).
Proof.
  apply (descriptive_stats_rows_follow_ticker_list
           stat0 quantile0 stat0 stat0 returns ["MSFT"; "GOOG"; "AAPL"; "MSFT"]).
  - exact returns_Table.
  - by apply (bool_decide_unpack _).
Defined.

Lemma descriptive_stats_one_row_per_ticker_sample :
  exists rows,
    descriptive_stats stat0 quantile0 stat0 stat0 returns ["MSFT"; "GOOG"; "AAPL"]
      = Ok rows
    /\ NoDup (label <$> rows)
    /\ (forall t, t ∈ label <$> rows
          <-> t ∈ ["MSFT"; "GOOG"; "AAPL"] /\ t ∈ columns returns)
    /\ Forall (fun r => exists s,
         (label r, s) ∈ cols returns
         /\ summary r = describe_1d stat0 quantile0 s
         /\ (dropna s <> [] ->
             d_min (summary r) ∈ dropna s
             /\ d_max (summary r) ∈ dropna s
             /\ (d_min (summary r) <=? d_max (summary r))%float = true
             /\ Forall (fun x => (d_min (summary r) <=? x)%float = true
                                 /\ (x <=? d_max (summary r))%float = true)
                       (dropna s))) rows.
Proof.
  apply (descriptive_stats_one_row_per_ticker
           stat0 quantile0 stat0 stat0 returns ["MSFT"; "GOOG"; "AAPL"]).
  - exact returns_Table.
  - by apply (bool_decide_unpack _).
  - by apply (bool_decide_unpack _).
Defined.

(** A ticker list that names the column AAPL twice: the requested tickers
    that are columns are the one ticker AAPL, the result has two rows for
    it, and in each the mean is above the max. *)
Lemma descriptive_stats_repeated_ticker :
  Table returns
  /\ (forall t, (t ∈ ["AAPL"; "AAPL"] /\ t ∈ columns returns) <-> t = "AAPL")
  /\ forall std quantile skew kurt,
       exists r1 r2,
         descriptive_stats std quantile skew kurt returns ["AAPL"; "AAPL"]
           = Ok [r1; r2]
         /\ label r1 = "AAPL" /\ label r2 = "AAPL"
         /\ (d_mean (summary r1) <=? d_max (summary r1))%float = false
         /\ (d_mean (summary r2) <=? d_max (summary r2))%float = false.
Proof.
  split; [exact returns_Table|]. split.
  - intros t. split.
    + intros [Ht _]. apply elem_of_cons in Ht as [->|Ht]; [done|].
      by apply list_elem_of_singleton in Ht.
    + intros ->. split; [left|]. by apply (bool_decide_unpack _).
  - intros std quantile skew kurt. eexists _, _.
    split; [vm_compute; reflexivity|]. by vm_compute.
Qed.

Example ts_stationarity_sample :
  ts_stationarity adf2 returns
  = Raise (mk_exn ValueError "sample size is too short").
Proof. vm_compute. reflexivity. Qed.

Definition prices : DataFrame :=
  {| index := [20240102; 20240103; 20240104]%Z;
     index_name := Some "Date";
     columns_name := None;
     cols := [("AAPL", [-3.5; 0.015625; 187.25]%float);
              ("MSFT", [nan; -1.25; significance; 371.0]%float)] |}.

Lemma prices_Table : Table prices.
Proof. by apply (bool_decide_unpack _). Defined.

Example ts_stationarity_prices :
  ts_stationarity adf2 prices
  = Ok [ mk_adf "AAPL" (-3.5) 0.015625 "Yes";
         mk_adf "MSFT" (-1.25) significance "No" ].
Proof. vm_compute. reflexivity. Qed.

Lemma ts_stationarity_classifies_sample :
  match ts_stationarity adf2 prices with
  | Ok rows => Forall2 (row_of_column adf2) (cols prices) rows
  | Raise e => exists c, c ∈ cols prices /\ adf2 (dropna c.2) = Raise e
  end.
Proof.
  apply (ts_stationarity_classifies_by_p_value adf2 prices).
  exact prices_Table.
Defined.

Lemma ts_stationarity_one_row_per_column_sample :
  (Forall (fun c => is_Ok (adf2 (dropna c.2))) (cols prices)
     <-> is_Ok (ts_stationarity adf2 prices))
  /\ forall rows, ts_stationarity adf2 prices = Ok rows ->
       length rows = length (columns prices)
       /\ Ticker <$> rows = columns prices.
Proof.
  apply (ts_stationarity_one_row_per_column adf2 prices).
  exact prices_Table.
Defined.

End AnalysisExamples.

(** ** Facts about data_loader.py *)

Module DataLoaderFacts.
Import DataLoader.

Section Loader.

Variable download : request -> result Downloaded.

Local Abbreviation stock_data := (DataLoader.stock_data download).

(** The date range of a call made at clock reading [now] with a lookback of
    [d] days. *)
Definition lookback_start (now : datetime) (d : Z) : datetime :=
  (now - d * US_PER_DAY)%Z.

Definition lookback_ok (now : datetime) (d : Z) : Prop :=
  (- MAX_DELTA_DAYS <= d <= MAX_DELTA_DAYS)%Z
  /\ datetime_ok (lookback_start now d) = true.

Lemma range_Ok now d :
  lookback_ok now d ->
  (delta <- timedelta d;; datetime_sub now delta) = Ok (lookback_start now d).
Proof.
  intros [[Hlo Hhi] Hok]. unfold timedelta.
  apply Z.leb_le in Hlo, Hhi. rewrite Hlo, Hhi. cbn.
  unfold datetime_sub. fold (lookback_start now d). by rewrite Hok.
Qed.

Lemma range_overflow now d :
  ~ lookback_ok now d ->
  raises (delta <- timedelta d;; datetime_sub now delta) OverflowError.
Proof.
  intros Hno. unfold timedelta.
  destruct ((- MAX_DELTA_DAYS <=? d) && (d <=? MAX_DELTA_DAYS))%Z eqn:Hd; cbn.
  - unfold datetime_sub. fold (lookback_start now d).
    destruct (datetime_ok (lookback_start now d)) eqn:Hok; [|by eexists].
    exfalso. apply Hno. apply andb_true_iff in Hd as [Hlo Hhi].
    apply Z.leb_le in Hlo, Hhi. done.
  - by eexists.
Qed.

(** On a frame of one level of columns the two assignments clear both
    names. *)
Lemma strip_names_of_flat (data : DataFrame) :
  strip_names (of_flat data)
  = of_flat {| index := index data; index_name := None;
               columns_name := None; cols := cols data |}.
Proof. reflexivity. Qed.

(** C9 (as amended): for every ticker list and every lookback of d days
    (200 when left out) whose start date the datetime type can hold, the
    call sends the provider one request, for these tickers, whose end is
    the clock reading and whose start is exactly d days before it; when the
    provider answers with a frame, the call returns that frame, index and
    columns as they are, with its index name stripped and, when its column
    axis has a single level, its column-group name stripped. *)
Theorem stock_data_requests_lookback_range
    (tickers : list string) (days : option Z) (w : World) :
  let d := default DEFAULT_DAYS days in
  let r := mk_request tickers (lookback_start (clock w) d) (clock w) in
  lookback_ok (clock w) d ->
  req_end r = clock w
  /\ (req_end r - req_start r = d * US_PER_DAY)%Z
  /\ requests (stock_data tickers days w).2 = requests w ++ [r]
  /\ forall data, download r = Ok data ->
       exists out,
         stock_data tickers days w = (Ok (Some out), send r w)
         /\ dl_index out = dl_index data
         /\ dl_columns out = dl_columns data
         /\ dl_index_name out = None
         /\ (forall name, dl_level_names data = [name] ->
               dl_level_names out = [None]).
Proof.
  intros d r Hok. unfold DataLoader.stock_data. fold d.
  rewrite (range_Ok _ _ Hok). fold r.
  split; [done|]. split; [unfold r, lookback_start; cbn; lia|].
  split.
  - destruct (download r) as [data|E]; [done|].
    by destruct (is_Exception E).
  - intros data ->. exists (strip_names data).
    repeat split. intros name Hname. cbn. by rewrite Hname.
Qed.

(** C4: when the provider call raises an exception (an instance of
    Exception), the call does not raise: it prints one line that reports
    the failure and returns None. *)
Theorem stock_data_provider_failure_returns_None
    (tickers : list string) (days : option Z) (w : World) (E : exn) :
  let d := default DEFAULT_DAYS days in
  let r := mk_request tickers (lookback_start (clock w) d) (clock w) in
  lookback_ok (clock w) d ->
  download r = Raise E ->
  is_Exception E = true ->
  stock_data tickers days w
  = (Ok None, print ("Error al descargar datos: " ++ exn_str E) (send r w)).
Proof.
  intros d r Hok Hdl HE. unfold DataLoader.stock_data. fold d.
  rewrite (range_Ok _ _ Hok). fold r. by rewrite Hdl, HE.
Qed.

(** What is not an instance of Exception passes through the handler. *)
Lemma stock_data_KeyboardInterrupt
    (tickers : list string) (days : option Z) (w : World) (msg : string) :
  let d := default DEFAULT_DAYS days in
  let r := mk_request tickers (lookback_start (clock w) d) (clock w) in
  lookback_ok (clock w) d ->
  download r = Raise (mk_exn KeyboardInterrupt msg) ->
  stock_data tickers days w = (Raise (mk_exn KeyboardInterrupt msg), send r w).
Proof.
  intros d r Hok Hdl. unfold DataLoader.stock_data. fold d.
  rewrite (range_Ok _ _ Hok). fold r. by rewrite Hdl.
Qed.

(** A lookback the datetime type cannot hold: OverflowError, raised before
    the handler is entered, and no request is sent. *)
Lemma stock_data_overflow
    (tickers : list string) (days : option Z) (w : World) :
  ~ lookback_ok (clock w) (default DEFAULT_DAYS days) ->
  raises (stock_data tickers days w).1 OverflowError
  /\ (stock_data tickers days w).2 = w.
Proof.
  intros Hno. unfold DataLoader.stock_data.
  destruct (range_overflow _ _ Hno) as [msg ->]. split; [by eexists|done].
Qed.

End Loader.

(** *** The loader on a sample world *)

(** 2024-01-02 09:30:00, on day 738887 of the calendar. *)
Definition morning : datetime := ((738887 - 1) * US_PER_DAY + 34200000000)%Z.

Definition world0 : World :=
  {| clock := morning; requests := []; stdout := [] |}.

(** The answer for one ticker, on one level of columns, and the answer for
    a list of tickers, on the two levels Price and Ticker. *)
Definition quotes : Downloaded :=
  {| dl_index := [20231229; 20240102]%Z;
     dl_index_name := Some "Date";
     dl_level_names := [Some "Price"];
     dl_columns := [(["Close"], [192.5; 185.5]%float)] |}.

Definition quotes2 : Downloaded :=
  {| dl_index := [20231229; 20240102]%Z;
     dl_index_name := Some "Date";
     dl_level_names := [Some "Price"; Some "Ticker"];
     dl_columns := [(["Close"; "AAPL"], [192.5; 185.5]%float);
                    (["Close"; "MSFT"], [376.0; 370.5]%float)] |}.

(** A provider that knows AAPL and MSFT and fails on every other request. *)
Definition provider (r : request) : result Downloaded :=
  if decide (req_tickers r = ["AAPL"]) then Ok quotes
  else if decide (req_tickers r = ["AAPL"; "MSFT"]) then Ok quotes2
  else Raise (mk_exn ProviderError "No data found, symbol may be delisted").

Lemma world0_lookback_200 : lookback_ok (clock world0) 200.
Proof. split; [split|]; by vm_compute. Defined.

Example stock_data_success :
  stock_data provider ["AAPL"] None world0
  = (Ok (Some (mk_downloaded [20231229; 20240102]%Z None [None]
                             [(["Close"], [192.5; 185.5]%float)])),
     mk_world morning
       [mk_request ["AAPL"] (morning - 200 * US_PER_DAY)%Z morning] []).
Proof. vm_compute. reflexivity. Qed.

Example stock_data_failure :
  stock_data provider ["XXXX"] (Some 30%Z) world0
  = (Ok None,
     mk_world morning
       [mk_request ["XXXX"] (morning - 30 * US_PER_DAY)%Z morning]
       ["Error al descargar datos: No data found, symbol may be delisted"]).
Proof. vm_compute. reflexivity. Qed.

Lemma stock_data_requests_lookback_range_sample :
  let r := mk_request ["AAPL"] (lookback_start morning 200) morning in
  req_end r = morning
  /\ (req_end r - req_start r = 200 * US_PER_DAY)%Z
  /\ requests (stock_data provider ["AAPL"] None world0).2 = [r]
  /\ forall data, provider r = Ok data ->
       exists out,
         stock_data provider ["AAPL"] None world0 = (Ok (Some out), send r world0)
         /\ dl_index out = dl_index data
         /\ dl_columns out = dl_columns data
         /\ dl_index_name out = None
         /\ (forall name, dl_level_names data = [name] ->
               dl_level_names out = [None]).
Proof.
  apply (stock_data_requests_lookback_range provider ["AAPL"] None world0).
  exact world0_lookback_200.
Defined.

Lemma stock_data_provider_failure_sample :
  stock_data provider ["XXXX"] None world0
  = (Ok None,
     print "Error al descargar datos: No data found, symbol may be delisted"
           (send (mk_request ["XXXX"] (lookback_start morning 200) morning) world0)).
Proof.
  apply (stock_data_provider_failure_returns_None provider ["XXXX"] None world0
           (mk_exn ProviderError "No data found, symbol may be delisted")).
  - exact world0_lookback_200.
  - reflexivity.
  - reflexivity.
Defined.

(** A lookback of four million days reaches back before year 1 from any
    date: the call raises OverflowError and returns nothing. *)
Lemma stock_data_lookback_before_year_one :
  (0 <= 4000000 <= MAX_DELTA_DAYS)%Z
  /\ forall download tickers w,
       datetime_ok (clock w) = true ->
       stock_data download tickers (Some 4000000%Z) w
       = (Raise (mk_exn OverflowError "date value out of range"), w).
Proof.
  split; [by vm_compute|].
  intros download tickers w Hw.
  assert ((delta <- timedelta 4000000;; datetime_sub (clock w) delta)
          = Raise (mk_exn OverflowError "date value out of range")) as Hrange.
  { unfold timedelta.
    change ((- MAX_DELTA_DAYS <=? 4000000) && (4000000 <=? MAX_DELTA_DAYS))%Z
      with true.
    cbn [bind]. unfold datetime_sub.
    assert (datetime_ok (clock w - 4000000 * US_PER_DAY) = false) as ->; [|done].
    unfold datetime_ok in *. apply andb_true_iff in Hw as [_ Hw].
    apply Z.ltb_lt in Hw. apply andb_false_iff. left. apply Z.leb_gt.
    unfold MAX_ORDINAL, US_PER_DAY in *. lia. }
  unfold stock_data.
  change (default DEFAULT_DAYS (Some 4000000%Z)) with 4000000%Z.
  by rewrite Hrange.
Qed.

(** The frame returned for two tickers keeps the names of its two column
    levels, Price and Ticker: only its index name is gone. *)
Example stock_data_two_levels :
  stock_data provider ["AAPL"; "MSFT"] None world0
  = (Ok (Some (mk_downloaded [20231229; 20240102]%Z None
                 [Some "Price"; Some "Ticker"]
                 [(["Close"; "AAPL"], [192.5; 185.5]%float);
                  (["Close"; "MSFT"], [376.0; 370.5]%float)])),
     mk_world morning
       [mk_request ["AAPL"; "MSFT"] (morning - 200 * US_PER_DAY)%Z morning] []).
Proof. vm_compute. reflexivity. Qed.

(** Where the statement without bounds fails: a lookback of four million
    days raises OverflowError at any date, and a frame on two column levels
    comes back with the names of both levels in place. *)
Lemma stock_data_overflows_and_keeps_level_names :
  ((0 <= 4000000 <= MAX_DELTA_DAYS)%Z
   /\ forall download tickers w,
        datetime_ok (clock w) = true ->
        stock_data download tickers (Some 4000000%Z) w
        = (Raise (mk_exn OverflowError "date value out of range"), w))
  /\ (lookback_ok (clock world0) 200
      /\ exists out,
           (stock_data provider ["AAPL"; "MSFT"] None world0).1 = Ok (Some out)
           /\ dl_level_names out = [Some "Price"; Some "Ticker"]).
Proof.
  split; [exact stock_data_lookback_before_year_one|].
  split; [exact world0_lookback_200|].
  eexists. split; [vm_compute; reflexivity|reflexivity].
Qed.

End DataLoaderFacts.

(** ** Facts about visualisation.py *)

Module VisualisationFacts.
Import Visualisation AnalysisFacts.

(** *** The subplot grid *)

Lemma concat_replicate {A} (r c : nat) (x : A) :
  concat (replicate r (replicate c x)) = replicate (r * c) x.
Proof.
  induction r as [|r IH]; [done|].
  cbn [replicate concat]. rewrite IH, <- replicate_add. done.
Qed.

Lemma grid_rows_cover (n : nat) : n <= 3 * ((n + 2) / 3).
Proof.
  pose proof (Nat.div_mod_eq (n + 2) 3) as H.
  pose proof (Nat.mod_upper_bound (n + 2) 3). lia.
Qed.

Lemma grid_rows_positive (n : nat) : n <> 0 -> (n + 2) / 3 <> 0.
Proof. intros Hn. pose proof (grid_rows_cover n). lia. Qed.

(** For at least one ticker the grid is allocated and flattens into
    3 * ceil(n / 3) fresh cells. *)
Lemma subplots_flatten (n : nat) :
  n <> 0 ->
  (axes <- subplots ((n + 2) / 3) 3;; flatten axes)
  = Ok (replicate (3 * ((n + 2) / 3)) fresh).
Proof.
  intros Hn. pose proof (grid_rows_positive n Hn) as Hr.
  unfold subplots. rewrite decide_False by done.
  rewrite (decide_False (P := 3 = 0)) by done.
  rewrite (decide_False (P := _ /\ 3 = 1)) by lia.
  destruct (decide ((n + 2) / 3 = 1)) as [->|Hne]; [done|].
  rewrite (decide_False (P := 3 = 1)) by done.
  cbn [bind flatten]. by rewrite concat_replicate, Nat.mul_comm.
Qed.

(** With no ticker the grid has no row, and matplotlib refuses it. *)
Lemma subplots_no_rows (c : nat) : raises (subplots ((0 + 2) / 3) c) ValueError.
Proof. by eexists. Qed.

(** *** Calls on one cell of a flattened grid *)

Lemma on_item_Some axes i ax f :
  axes !! i = Some ax ->
  on_item axes i f = (ax' <- f ax;; Ok (<[i := ax']> axes)).
Proof. intros H. unfold on_item, item. by rewrite H. Qed.

Lemma on_item_None axes i f :
  axes !! i = None ->
  on_item axes i f = Raise (mk_exn IndexError "index out of bounds for axis 0").
Proof. intros H. unfold on_item, item. by rewrite H. Qed.

Lemma on_item_ext axes i f g :
  (forall ax, f ax = g ax) -> on_item axes i f = on_item axes i g.
Proof.
  intros H. unfold on_item. destruct (item axes i) as [ax|e]; [|done].
  cbn [bind]. by rewrite H.
Qed.

Lemma bind_ext {A B} (m : result A) (k k' : A -> result B) :
  (forall x, k x = k' x) -> (x <- m;; k x) = (x <- m;; k' x).
Proof. intros H. destruct m; [apply H|done]. Qed.

(** Four calls in a row on [axes[i]] are one call that does all four. *)
Lemma on_item_four axes i f1 f2 f3 f4 :
  (axes <- on_item axes i f1;;
   axes <- on_item axes i f2;;
   axes <- on_item axes i f3;;
   on_item axes i f4)
  = on_item axes i (fun ax =>
      ax <- f1 ax;; ax <- f2 ax;; ax <- f3 ax;; f4 ax).
Proof.
  unfold on_item, item. destruct (axes !! i) as [ax|] eqn:E; [|done].
  apply lookup_lt_Some in E. cbn [bind].
  destruct (f1 ax) as [ax1|e]; [|done]. cbn [bind].
  rewrite list_lookup_insert_eq by done. cbn [bind].
  destruct (f2 ax1) as [ax2|e]; [|done]. cbn [bind].
  rewrite list_insert_insert_eq.
  rewrite list_lookup_insert_eq by done. cbn [bind].
  destruct (f3 ax2) as [ax3|e]; [|done]. cbn [bind].
  rewrite list_insert_insert_eq.
  rewrite list_lookup_insert_eq by done. cbn [bind].
  destruct (f4 ax3) as [ax4|e]; [|done]. cbn [bind].
  by rewrite list_insert_insert_eq.
Qed.

(** The loop over [enumerate(tickers)] with one call per cell. *)
Fixpoint cell_loop (cell : string -> Axes -> result Axes)
    (its : list (nat * string)) (axes : list Axes) : result (list Axes) :=
  match its with
  | [] => Ok axes
  | (i, ticker) :: rest =>
      axes <- on_item axes i (cell ticker);;
      cell_loop cell rest axes
  end.

(** The same, cell by cell down the list of Axes. *)
Fixpoint cells (cell : string -> Axes -> result Axes)
    (ts : list string) (axs : list Axes) : result (list Axes) :=
  match ts with
  | [] => Ok axs
  | t :: ts =>
      match axs with
      | [] => Raise (mk_exn IndexError "index out of bounds for axis 0")
      | ax :: axs =>
          ax' <- cell t ax;;
          r <- cells cell ts axs;;
          Ok (ax' :: r)
      end
  end.

Lemma cell_loop_cells cell ts : forall pre axs,
  cell_loop cell (zip (seq (length pre) (length ts)) ts) (pre ++ axs)
  = (r <- cells cell ts axs;; Ok (pre ++ r)).
Proof.
  induction ts as [|t ts IH]; intros pre axs; [done|].
  cbn [length seq zip zip_with cell_loop cells].
  destruct axs as [|ax axs].
  - rewrite on_item_None; [done|].
    apply lookup_ge_None. rewrite app_nil_r. done.
  - rewrite (on_item_Some _ _ ax) by (by rewrite list_lookup_middle).
    destruct (cell t ax) as [ax'|e]; [|done]. cbn [bind].
    rewrite insert_app_r_alt, Nat.sub_diag by done. cbn [insert list_insert].
    replace (pre ++ ax' :: axs) with ((pre ++ [ax']) ++ axs)
      by (by rewrite <- app_assoc).
    replace (S (length pre)) with (length (pre ++ [ax']))
      by (rewrite length_app; cbn; lia).
    rewrite IH. destruct (cells cell ts axs) as [r|e]; [|done].
    cbn [bind]. by rewrite <- app_assoc.
Qed.

Lemma off_loop_drop suf : forall pre,
  off_loop (seq (length pre) (length suf)) (pre ++ suf)
  = Ok (pre ++ (axis_off <$> suf)).
Proof.
  induction suf as [|ax suf IH]; intros pre; [done|].
  cbn [length seq off_loop].
  rewrite (on_item_Some _ _ ax) by (by rewrite list_lookup_middle).
  cbn [bind].
  rewrite insert_app_r_alt, Nat.sub_diag by done. cbn [insert list_insert].
  replace (pre ++ axis_off ax :: suf) with ((pre ++ [axis_off ax]) ++ suf)
    by (by rewrite <- app_assoc).
  replace (S (length pre)) with (length (pre ++ [axis_off ax]))
    by (rewrite length_app; cbn; lia).
  rewrite IH. by rewrite <- app_assoc.
Qed.

Lemma cells_length cell ts : forall axs r,
  cells cell ts axs = Ok r -> length r = length axs.
Proof.
  induction ts as [|t ts IH]; intros axs r; cbn.
  - by intros [= <-].
  - destruct axs as [|ax axs]; [done|].
    destruct (cell t ax) as [ax'|e]; [|done]. cbn.
    destruct (cells cell ts axs) as [r'|e] eqn:E; [|done]. cbn.
    intros [= <-]. cbn. f_equal. by apply IH.
Qed.

(** *** plot_histograms and plot_boxplots *)

Section Grids.

Variable refuses : drawing -> option exn.

Local Abbreviation draw := (Visualisation.draw refuses).
Local Abbreviation plot_histograms := (Visualisation.plot_histograms refuses).
Local Abbreviation plot_boxplots := (Visualisation.plot_boxplots refuses).

(** What the body of either loop does to the cell of one ticker: [mk] is
    the drawing made of the column, [decor] the title, labels and ticks set
    after it. *)
Definition grid_cell (mk : Series -> drawing) (decor : string -> Axes -> Axes)
    (data : DataFrame) (ticker : string) (ax : Axes) : result Axes :=
  if decide (ticker ∈ columns data) then
    x <- getitem data ticker;;
    ax <- draw (mk x) ax;;
    Ok (decor ticker ax)
  else Ok (axis_off ax).

Definition hist_decor (ticker : string) (ax : Axes) : Axes :=
  set_ylabel "Frequency" (set_xlabel "Return" (set_title (ticker ++ " Returns") ax)).

Definition box_drawing (x : Series) : drawing := Boxplot (dropna x).

Definition box_decor (ticker : string) (ax : Axes) : Axes :=
  set_xticks [] (set_ylabel "Return" (set_title (ticker ++ " Returns") ax)).

Lemma hist_loop_cell_loop data its : forall axes,
  hist_loop refuses data its axes
  = cell_loop (grid_cell Hist hist_decor data) its axes.
Proof.
  induction its as [|[i t] rest IH]; intros axes; [done|].
  cbn [hist_loop cell_loop]. unfold grid_cell at 1.
  destruct (decide (t ∈ columns data)).
  - rewrite on_item_four.
    rewrite (on_item_ext axes i _ (fun ax =>
               x <- getitem data t;; ax <- draw (Hist x) ax;; Ok (hist_decor t ax))).
    + by apply bind_ext.
    + intros ax. destruct (getitem data t) as [x|err]; [|done]. cbn [bind].
      by destruct (draw (Hist x) ax).
  - by apply bind_ext.
Qed.

Lemma box_loop_cell_loop data its : forall axes,
  box_loop refuses data its axes
  = cell_loop (grid_cell box_drawing box_decor data) its axes.
Proof.
  induction its as [|[i t] rest IH]; intros axes; [done|].
  cbn [box_loop cell_loop]. unfold grid_cell at 1.
  destruct (decide (t ∈ columns data)).
  - rewrite on_item_four.
    rewrite (on_item_ext axes i _ (fun ax =>
               x <- getitem data t;; ax <- draw (box_drawing x) ax;;
               Ok (box_decor t ax))).
    + by apply bind_ext.
    + intros ax. destruct (getitem data t) as [x|err]; [|done]. cbn [bind].
      unfold box_drawing. by destruct (draw (Boxplot (dropna x)) ax).
  - by apply bind_ext.
Qed.

Lemma column_of_label data t :
  t ∈ columns data -> exists s, (t, s) ∈ cols data.
Proof.
  intros Ht. apply list_elem_of_fmap in Ht as ([u s] & -> & Hin). by exists s.
Qed.

Lemma column_unique data t s s' :
  Table data -> (t, s) ∈ cols data -> (t, s') ∈ cols data -> s = s'.
Proof.
  intros Hnd H H'. apply (getitem_Table _ _ _ Hnd) in H, H'. congruence.
Qed.

Section Cells.

Variable mk : Series -> drawing.
Variable decor : string -> Axes -> Axes.
Variable data : DataFrame.
Hypothesis data_Table : Table data.

(** What the cell of ticker [t] shows after the loop, [ax] being what it
    showed before. *)
Definition cell_shows (t : string) (ax : Axes) (shown : option Axes) : Prop :=
  (t ∉ columns data -> shown = Some (axis_off ax))
  /\ (forall s, (t, s) ∈ cols data ->
        refuses (mk s) = None /\ shown = Some (decor t (add_artist (mk s) ax))).

(** An exception that the drawing of a requested column raised. *)
Definition raised_by_drawing (ts : list string) (e : exn) : Prop :=
  exists t s, t ∈ ts /\ (t, s) ∈ cols data /\ refuses (mk s) = Some e.

Lemma cells_outcome ts : forall axs,
  length ts <= length axs ->
  match cells (grid_cell mk decor data) ts axs with
  | Ok r =>
      (forall i t ax, ts !! i = Some t -> axs !! i = Some ax ->
         cell_shows t ax (r !! i))
      /\ (forall j, length ts <= j -> r !! j = axs !! j)
  | Raise e => raised_by_drawing ts e
  end.
Proof.
  induction ts as [|t ts IH]; intros axs Hlen.
  - cbn. split; [|done]. intros i t ax H. by rewrite lookup_nil in H.
  - destruct axs as [|ax axs]; [cbn in Hlen; lia|].
    cbn in Hlen. specialize (IH axs ltac:(lia)).
    cbn [cells]. unfold grid_cell at 1.
    destruct (decide (t ∈ columns data)) as [Hin|Hnot].
    + destruct (column_of_label _ _ Hin) as [s Hs].
      rewrite (getitem_Table _ _ _ data_Table Hs). cbn [bind].
      unfold Visualisation.draw.
      destruct (refuses (mk s)) as [e|] eqn:Hr; cbn [bind].
      { exists t, s. split; [left|done]. }
      destruct (cells _ ts axs) as [r|e]; cbn [bind].
      * destruct IH as [IH1 IH2]. split.
        -- intros [|i] t' ax' Ht' Hax'; cbn in *.
           ++ injection Ht' as <-. injection Hax' as <-. split; [done|].
              intros s' Hs'. by rewrite <- (column_unique _ _ _ _ data_Table Hs Hs').
           ++ by apply IH1.
        -- intros [|j] Hj; cbn in *; [lia|]. apply IH2. lia.
      * destruct IH as (t' & s' & Ht' & Hs' & Hr').
        exists t', s'. split; [by right|done].
    + cbn [bind].
      destruct (cells _ ts axs) as [r|e]; cbn [bind].
      * destruct IH as [IH1 IH2]. split.
        -- intros [|i] t' ax' Ht' Hax'; cbn in *.
           ++ injection Ht' as <-. injection Hax' as <-. split; [done|].
              intros s' Hs'. exfalso. apply Hnot.
              apply list_elem_of_fmap. by exists (t, s').
           ++ by apply IH1.
        -- intros [|j] Hj; cbn in *; [lia|]. apply IH2. lia.
      * destruct IH as (t' & s' & Ht' & Hs' & Hr').
        exists t', s'. split; [by right|done].
Qed.

(** The result of a grid function for the requested tickers: a flattened
    grid of 3 * ceil(n / 3) cells in which the cell of an absent ticker and
    every cell past the last ticker is switched off and empty, and the cell
    of a present ticker shows its column; or an exception that the drawing
    of a present ticker's column raised. *)
Definition grid_result (tickers : list string) (r : result (list Axes)) : Prop :=
  let n := length tickers in
  let m := 3 * ((n + 2) / 3) in
  match r with
  | Ok axes =>
      length axes = m
      /\ (forall i t, tickers !! i = Some t -> cell_shows t fresh (axes !! i))
      /\ (forall j, n <= j < m -> axes !! j = Some (axis_off fresh))
  | Raise e => raised_by_drawing tickers e
  end.

(** The library draws the column of every requested ticker that is one. *)
Definition draws_requested (tickers : list string) : Prop :=
  forall t s, t ∈ tickers -> (t, s) ∈ cols data -> refuses (mk s) = None.

(** The outcome: the call returns exactly when the library draws what it is
    asked to, and its result is as [grid_result] says. *)
Definition grid_outcome (tickers : list string) (r : result (list Axes)) : Prop :=
  (draws_requested tickers <-> is_Ok r) /\ grid_result tickers r.

Lemma grid_result_outcome tickers r :
  grid_result tickers r -> grid_outcome tickers r.
Proof.
  intros H. split; [|done]. destruct r as [axes|e]; cbn in H.
  - split; [by eexists|]. intros _ t s Ht Hs.
    destruct H as (_ & Hcell & _).
    apply list_elem_of_lookup in Ht as [i Hi].
    by destruct (Hcell i t Hi) as [_ [Hr _]%(fun H => H s Hs)].
  - destruct H as (t & s & Ht & Hs & Hr). split.
    + intros Hd. rewrite (Hd t s Ht Hs) in Hr. done.
    + intros [axes Hax]. done.
Qed.

Lemma grid_result_cells tickers :
  tickers <> [] ->
  grid_result tickers
    (axes <- subplots ((length tickers + 2) / 3) 3;;
     axes <- flatten axes;;
     axes <- cell_loop (grid_cell mk decor data) (enumerate tickers) axes;;
     off_loop (seq (length tickers) (length axes - length tickers)) axes).
Proof.
  intros Hne.
  assert (length tickers <> 0) as Hn by (by destruct tickers).
  pose proof (subplots_flatten _ Hn) as Hgrid.
  pose proof (grid_rows_cover (length tickers)) as Hcover.
  set (n := length tickers) in *. set (m := 3 * ((n + 2) / 3)) in *.
  destruct (subplots ((n + 2) / 3) 3) as [nd|e]; [|done].
  cbn [bind] in *. rewrite Hgrid. cbn [bind].
  pose proof (cell_loop_cells (grid_cell mk decor data) tickers []
                (replicate m fresh)) as Hloop.
  cbn [length app] in Hloop. fold n in Hloop. unfold enumerate. fold n.
  rewrite Hloop. clear Hloop.
  pose proof (cells_outcome tickers (replicate m fresh)) as Hout.
  rewrite length_replicate in Hout. specialize (Hout Hcover).
  destruct (cells _ tickers (replicate m fresh)) as [r|e] eqn:Hcells;
    cbn [bind app]; [|exact Hout].
  apply cells_length in Hcells. rewrite length_replicate in Hcells.
  destruct Hout as [Hcell Htail].
  rewrite <- (take_drop n r) at 2.
  replace (seq n (length r - n))
    with (seq (length (take n r)) (length (drop n r)))
    by (rewrite length_take_le, length_drop by lia; done).
  rewrite off_loop_drop. unfold grid_result. fold n m.
  split; [|split].
  - rewrite length_app, length_fmap, length_take_le, length_drop by lia. lia.
  - intros i t Hi.
    assert (i < n) as Hlt by (by apply lookup_lt_Some in Hi).
    rewrite lookup_app_l by (rewrite length_take_le by lia; done).
    rewrite lookup_take_lt by done.
    apply (Hcell i t fresh Hi). apply lookup_replicate_2. lia.
  - intros j [Hj1 Hj2].
    rewrite lookup_app_r by (rewrite length_take_le by lia; done).
    rewrite length_take_le by lia.
    rewrite list_lookup_fmap, lookup_drop.
    replace (n + (j - n)) with j by lia.
    rewrite Htail by done. by rewrite lookup_replicate_2 by lia.
Qed.

End Cells.

(** C8 (as amended): on a table and for a ticker list that is not empty,
    the histogram grid and the boxplot grid have 3 columns and ceil(n / 3)
    rows, so at least one cell per ticker; each call either returns the
    grid, in which the cell of a ticker that is not a column and every cell
    past the last ticker is switched off and empty and the cell of a ticker
    that is a column shows that column, or raises what the library raised
    when it drew the column of a present ticker: no IndexError from the
    grid, no KeyError from an absent ticker.  The call returns exactly when
    the library draws the column of every present ticker. *)
Theorem grids_cover_tickers_and_blank_absent
    (data : DataFrame) (tickers : list string) :
  Table data ->
  tickers <> [] ->
  let n := length tickers in
  let rows := (n + 2) / 3 in
  (n <= 3 * rows < n + 3)
  /\ grid_outcome Hist hist_decor data tickers (plot_histograms data tickers)
  /\ grid_outcome box_drawing box_decor data tickers (plot_boxplots data tickers).
Proof.
  intros Hnd Hne n rows. split; [|split].
  - pose proof (Nat.div_mod_eq (n + 2) 3).
    pose proof (Nat.mod_upper_bound (n + 2) 3). unfold rows. lia.
  - apply grid_result_outcome.
    pose proof (grid_result_cells Hist hist_decor data Hnd tickers Hne) as H.
    unfold Visualisation.plot_histograms.
    destruct (subplots _ 3) as [nd|e]; [|exact H]. cbn [bind] in *.
    destruct (flatten nd) as [axes|e]; [|exact H]. cbn [bind] in *.
    by rewrite hist_loop_cell_loop.
  - apply grid_result_outcome.
    pose proof (grid_result_cells box_drawing box_decor data Hnd tickers Hne) as H.
    unfold Visualisation.plot_boxplots.
    destruct (subplots _ 3) as [nd|e]; [|exact H]. cbn [bind] in *.
    destruct (flatten nd) as [axes|e]; [|exact H]. cbn [bind] in *.
    by rewrite box_loop_cell_loop.
Qed.


End Grids.

(** *** tracking_plot *)

Section Lines.

Variable refuses : drawing -> option exn.

Local Abbreviation tracking_plot := (Visualisation.tracking_plot refuses).

(** What a call that meets an absent ticker raises. *)
Definition absent_or_refused (data : DataFrame) (tickers : list string)
    (e : exn) : Prop :=
  (exists u, u ∈ tickers /\ (u ∉ columns data) /\ e = mk_exn KeyError u)
  \/ (exists d, refuses d = Some e).

Lemma plot_lines_absent data tickers t : forall ax,
  t ∈ tickers -> t ∉ columns data ->
  exists e, plot_lines refuses data tickers ax = Raise e
            /\ absent_or_refused data tickers e.
Proof.
  induction tickers as [|u us IH]; intros ax Hin Hnot.
  - by apply elem_of_nil in Hin.
  - cbn [plot_lines].
    destruct (decide (u ∈ columns data)) as [Hu|Hu].
    + apply elem_of_cons in Hin as [->|Hin]; [done|].
      destruct (column_of_label _ _ Hu) as [s Hs].
      assert (exists y, getitem data u = Ok y) as [y ->].
      { unfold getitem. destruct (list_find _ _) as [[i c]|] eqn:E; [by eexists|].
        exfalso. eapply list_find_None in E.
        rewrite Forall_forall in E. by apply (E (u, s)). }
      cbn [bind]. unfold Visualisation.draw.
      destruct (refuses _) as [e|] eqn:Hr; cbn [bind].
      * exists e. split; [done|]. right. eauto.
      * destruct (IH (add_artist (Plot (index data) y (Some u)) ax) Hin Hnot)
          as (e & -> & [(v & Hv & Hvn & ->)|Hd]).
        -- eexists. split; [done|]. left. exists v. split; [by right|done].
        -- eexists. split; [done|]. by right.
    + rewrite (getitem_missing _ _ Hu). cbn [bind].
      eexists. split; [done|]. left. exists u. split; [left|done].
Qed.

(** C6, the line plot: when a requested ticker is not a column of the data
    the call does not return.  It raises, and what it raises is the KeyError
    of a requested ticker that is not a column (or what the library raised
    on a line drawn before that ticker was reached). *)
Theorem tracking_plot_absent_ticker_raises
    (data : DataFrame) (tickers : list string) (title xlabel ylabel t : string) :
  t ∈ tickers ->
  t ∉ columns data ->
  exists e, tracking_plot data tickers title xlabel ylabel = Raise e
            /\ absent_or_refused data tickers e.
Proof.
  intros Hin Hnot. unfold Visualisation.tracking_plot.
  destruct (plot_lines_absent data tickers t fresh Hin Hnot) as (e & -> & He).
  by exists e.
Qed.

End Lines.

(** *** ts_decomposition and acf_pacf *)

(** The number of rows [axes[i, j]] can reach. *)
Definition nrows2 (axes : ndaxes) : nat :=
  match axes with
  | Axes2D rows => length rows
  | _ => 0
  end.

Lemma on_item2_Ok axes i j f axes' :
  on_item2 axes i j f = Ok axes' ->
  i < nrows2 axes /\ nrows2 axes' = nrows2 axes.
Proof.
  unfold on_item2, item2. destruct axes as [ax|l|rows]; try done.
  destruct (rows !! i) as [row|] eqn:E; [|done].
  destruct (row !! j) as [ax|]; [|done]. cbn [bind].
  destruct (f ax) as [ax'|e]; [|done]. cbn [bind store2 nrows2].
  intros [= <-]. cbn [nrows2]. rewrite length_alter.
  split; [by apply lookup_lt_Some in E|done].
Qed.

Lemma subplots_nrows2 n c :
  2 <= c ->
  match subplots n c with
  | Ok axes => n <> 0 /\ nrows2 axes = (if decide (n = 1) then 0 else n)
  | Raise e => n = 0
  end.
Proof.
  intros Hc. unfold subplots.
  destruct (decide (n = 0)); [done|].
  rewrite (decide_False (P := c = 0)) by lia.
  rewrite (decide_False (P := _ /\ c = 1)) by lia.
  destruct (decide (n = 1)); [done|].
  rewrite (decide_False (P := c = 1)) by lia.
  cbn. by rewrite length_replicate.
Qed.

Lemma enumerate_last {A} (l : list A) :
  l <> [] -> exists x, (length l - 1, x) ∈ enumerate l.
Proof.
  intros Hne. destruct (l !! (length l - 1)) as [x|] eqn:E.
  - exists x. unfold enumerate. apply list_elem_of_lookup.
    exists (length l - 1). apply lookup_zip_with_Some.
    exists (length l - 1), x. split; [done|]. split; [|done].
    apply lookup_seq. destruct l; [done|]. cbn. lia.
  - apply lookup_ge_None in E. destruct l; [done|]. cbn in E. lia.
Qed.

Section Rows.

Variable refuses : drawing -> option exn.
Variable seasonal_decompose :
  Series -> string -> Z -> result (Series * Series * Series).

Local Abbreviation ts_decomposition :=
  (Visualisation.ts_decomposition refuses seasonal_decompose).
Local Abbreviation acf_pacf := (Visualisation.acf_pacf refuses).

Ltac step_on_item2 H :=
  match type of H with
  | (_ <- on_item2 ?a ?i ?j ?f;; _) = Ok _ =>
      let a' := fresh "a" in let E := fresh "E" in
      destruct (on_item2 a i j f) as [a'|] eqn:E; [|discriminate H];
      cbn [bind] in H; apply on_item2_Ok in E as [? ?]
  end.

Lemma decomposition_loop_rows data its : forall axes axes',
  decomposition_loop refuses seasonal_decompose data its axes = Ok axes' ->
  Forall (fun it => it.1 < nrows2 axes) its.
Proof.
  induction its as [|[i t] rest IH]; intros axes axes' H; [constructor|].
  cbn [decomposition_loop] in H.
  destruct (getitem data t) as [x|]; [|done]. cbn [bind] in H.
  destruct (seasonal_decompose _ _ _) as [[[trend seasonal] resid]|]; [|done].
  cbn [bind] in H.
  do 9 step_on_item2 H.
  apply IH in H. constructor; [done|].
  eapply Forall_impl; [exact H|]. intros it Hit. cbn in *. lia.
Qed.

Lemma acf_pacf_loop_rows data its : forall axes axes',
  acf_pacf_loop refuses data its axes = Ok axes' ->
  Forall (fun it => it.1 < nrows2 axes) its.
Proof.
  induction its as [|[i t] rest IH]; intros axes axes' H; [constructor|].
  cbn [acf_pacf_loop] in H.
  destruct (getitem data t) as [x|]; [|done]. cbn [bind] in H.
  do 2 step_on_item2 H.
  do 2 step_on_item2 H.
  apply IH in H. constructor; [done|].
  eapply Forall_impl; [exact H|]. intros it Hit. cbn in *. lia.
Qed.

Lemma rows_needed (data : DataFrame) (tickers : list string) (axes : ndaxes) :
  length tickers <> 0 ->
  nrows2 axes = (if decide (length tickers = 1) then 0 else length tickers) ->
  Forall (fun it : nat * string => it.1 < nrows2 axes) (enumerate (columns data)) ->
  length (columns data) <= length tickers
  /\ (length tickers = 1 -> columns data = []).
Proof.
  intros Hn Hrows Hall.
  destruct (decide (columns data = [])) as [->|Hne]; [cbn; split; [lia|done]|].
  destruct (enumerate_last _ Hne) as [x Hx].
  rewrite Forall_forall in Hall. apply Hall in Hx. cbn in Hx.
  rewrite Hrows in Hx. destruct (decide (length tickers = 1)); lia.
Qed.

(** C5, what the code does: either function returns only when the ticker
    list is not empty and at least as long as the table has columns, and a
    list of one ticker only with a table without columns.  The number of
    grid rows is the length of the ticker list, the loop runs over the
    columns of the table. *)
Theorem decomposition_and_acf_need_a_row_per_column
    (data : DataFrame) (tickers : list string) :
  is_Ok (ts_decomposition data tickers) \/ is_Ok (acf_pacf data tickers) ->
  length tickers <> 0
  /\ length (columns data) <= length tickers
  /\ (length tickers = 1 -> columns data = []).
Proof.
  intros [[fig H]|[fig H]].
  - unfold Visualisation.ts_decomposition in H.
    pose proof (subplots_nrows2 (length tickers) 3 ltac:(lia)) as Hsub.
    destruct (subplots (length tickers) 3) as [axes|]; [|done].
    destruct Hsub as [Hn Hrows]. cbn [bind] in H.
    destruct (decomposition_loop _ _ _ _ _) as [axes'|] eqn:E; [|done].
    apply decomposition_loop_rows in E.
    split; [done|]. by apply (rows_needed data tickers axes).
  - unfold Visualisation.acf_pacf in H.
    pose proof (subplots_nrows2 (length tickers) 2 ltac:(lia)) as Hsub.
    destruct (subplots (length tickers) 2) as [axes|]; [|done].
    destruct Hsub as [Hn Hrows]. cbn [bind] in H.
    destruct (acf_pacf_loop _ _ _ _) as [axes'|] eqn:E; [|done].
    apply acf_pacf_loop_rows in E.
    split; [done|]. by apply (rows_needed data tickers axes).
Qed.

End Rows.


End VisualisationFacts.

(** ** visualisation.py on sample data *)

Module VisualisationExamples.
Import Visualisation VisualisationFacts AnalysisExamples.

(** Stand-ins for the libraries: one that draws whatever it is given, and a
    decomposition that hands the series back as each of its components. *)
Definition draws_all (d : drawing) : option exn := None.

Definition decompose_id (x : Series) (model : string) (period : Z)
  : result (Series * Series * Series) := Ok (x, x, x).

(** A library that refuses a histogram of a column without values. *)
Definition needs_values (d : drawing) : option exn :=
  match d with
  | Hist x =>
      if decide (dropna x = [])
      then Some (mk_exn ValueError "autodetected range of [nan, nan] is not finite")
      else None
  | _ => None
  end.

Definition one_column : DataFrame :=
  {| index := index prices; index_name := None; columns_name := None;
     cols := [("AAPL", [-3.5; 0.015625; 187.25]%float)] |}.

(** **** The grids *)

Example plot_histograms_four_tickers :
  plot_histograms draws_all returns ["AAPL"; "GOOG"; "MSFT"; "TSLA"]
  = Ok [ hist_decor "AAPL" (add_artist (Hist [tenth; tenth; tenth]) fresh);
         axis_off fresh;
         hist_decor "MSFT" (add_artist (Hist [nan; 0.5; -0.25]%float) fresh);
         hist_decor "TSLA" (add_artist (Hist [nan; nan; nan]) fresh);
         axis_off fresh;
         axis_off fresh ].
Proof. vm_compute. reflexivity. Qed.

Example plot_boxplots_absent_only :
  plot_boxplots draws_all returns ["GOOG"]
  = Ok [axis_off fresh; axis_off fresh; axis_off fresh].
Proof. vm_compute. reflexivity. Qed.

Example plot_histograms_library_error :
  plot_histograms needs_values returns ["AAPL"; "GOOG"; "TSLA"]
  = Raise (mk_exn ValueError "autodetected range of [nan, nan] is not finite").
Proof. vm_compute. reflexivity. Qed.

Example plot_histograms_no_ticker :
  raises (plot_histograms draws_all returns []) ValueError.
Proof. by eexists. Qed.

(** TSLA is a column of [returns] and all its values are missing.  A
    library that refuses the histogram of such a column, as matplotlib does
    ("autodetected range of [nan, nan] is not finite"), makes
    plot_histograms raise for this present ticker: for TSLA alone whatever
    the exception is, and for the four tickers below after AAPL and MSFT
    were drawn and the cell of GOOG switched off. *)
Lemma plot_histograms_raises_for_present_ticker :
  Table returns
  /\ "TSLA" ∈ columns returns
  /\ (forall refuses e,
        refuses (Hist [nan; nan; nan]) = Some e ->
        plot_histograms refuses returns ["TSLA"] = Raise e)
  /\ plot_histograms needs_values returns ["AAPL"; "GOOG"; "MSFT"; "TSLA"]
     = Raise (mk_exn ValueError "autodetected range of [nan, nan] is not finite").
Proof.
  split; [exact returns_Table|]. split; [by apply (bool_decide_unpack _)|].
  split; [|vm_compute; reflexivity].
  intros refuses e He. vm_compute. vm_compute in He. by rewrite He.
Qed.

Lemma grids_cover_tickers_sample :
  (4 <= 3 * ((4 + 2) / 3) < 4 + 3)
  /\ grid_outcome draws_all Hist hist_decor returns
       ["AAPL"; "GOOG"; "MSFT"; "TSLA"]
       (plot_histograms draws_all returns ["AAPL"; "GOOG"; "MSFT"; "TSLA"])
  /\ grid_outcome draws_all box_drawing box_decor returns
       ["AAPL"; "GOOG"; "MSFT"; "TSLA"]
       (plot_boxplots draws_all returns ["AAPL"; "GOOG"; "MSFT"; "TSLA"]).
Proof.
  apply (grids_cover_tickers_and_blank_absent draws_all returns
           ["AAPL"; "GOOG"; "MSFT"; "TSLA"]).
  - exact returns_Table.
  - discriminate.
Defined.

(** **** The line plot *)

Example tracking_plot_present :
  tracking_plot draws_all returns ["MSFT"; "AAPL"] "Returns" "Date" "Return"
  = Ok (mk_axes
          [ Plot (index returns) [nan; 0.5; -0.25]%float (Some "MSFT");
            Plot (index returns) [tenth; tenth; tenth] (Some "AAPL") ]
          (Some "Returns") (Some "Date") (Some "Return") None true true true).
Proof. vm_compute. reflexivity. Qed.

(** The line plot raises on the absent ticker that the histogram grid, given
    the same arguments, switches off. *)
Example tracking_plot_absent :
  tracking_plot draws_all returns ["AAPL"; "GOOG"] "Returns" "Date" "Return"
    = Raise (mk_exn KeyError "GOOG")
  /\ plot_histograms draws_all returns ["AAPL"; "GOOG"]
    = Ok [ hist_decor "AAPL" (add_artist (Hist [tenth; tenth; tenth]) fresh);
           axis_off fresh;
           axis_off fresh ].
Proof. split; vm_compute; reflexivity. Qed.

Lemma tracking_plot_absent_ticker_sample :
  exists e,
    tracking_plot draws_all returns ["AAPL"; "GOOG"] "Returns" "Date" "Return"
      = Raise e
    /\ absent_or_refused draws_all returns ["AAPL"; "GOOG"] e.
Proof.
  apply (tracking_plot_absent_ticker_raises draws_all returns ["AAPL"; "GOOG"]
           "Returns" "Date" "Return" "GOOG").
  - by apply (bool_decide_unpack _).
  - by apply (bool_decide_unpack _).
Defined.

(** **** Decomposition and autocorrelation *)

(** As many tickers as columns, and at least two: one row per column. *)
Example acf_pacf_two_columns :
  acf_pacf draws_all prices ["AAPL"; "MSFT"]
  = Ok (mk_figure
          (Axes2D
             [ [ set_title "AAPL - Autocorrelation (ACF)"
                   (add_artist (Acf [-3.5; 0.015625; 187.25]%float 25) fresh);
                 set_title "AAPL - Partial Autocorrelation (PACF)"
                   (add_artist (Pacf [-3.5; 0.015625; 187.25]%float 25) fresh) ];
               [ set_title "MSFT - Autocorrelation (ACF)"
                   (add_artist (Acf [-1.25; AnalysisTools.significance; 371.0]%float 25) fresh);
                 set_title "MSFT - Partial Autocorrelation (PACF)"
                   (add_artist (Pacf [-1.25; AnalysisTools.significance; 371.0]%float 25) fresh) ] ])
          (Some "ACF and PACF for Stock Returns")).
Proof. vm_compute. reflexivity. Qed.

(** Three columns and two tickers: the third column has no row. *)
Example fewer_tickers_than_columns :
  ts_decomposition draws_all decompose_id returns ["AAPL"; "MSFT"]
    = Raise (mk_exn IndexError "index out of bounds for axis 0")
  /\ acf_pacf draws_all returns ["AAPL"; "MSFT"]
    = Raise (mk_exn IndexError "index out of bounds for axis 0").
Proof. split; vm_compute; reflexivity. Qed.

(** One column and its one ticker: the grid is a 1-D array. *)
Example one_ticker_one_column :
  ts_decomposition draws_all decompose_id one_column ["AAPL"]
    = Raise (mk_exn IndexError
        "too many indices for array: array is 1-dimensional, but 2 were indexed")
  /\ acf_pacf draws_all one_column ["AAPL"]
    = Raise (mk_exn IndexError
        "too many indices for array: array is 1-dimensional, but 2 were indexed").
Proof. split; vm_compute; reflexivity. Qed.

(** More tickers than columns: the rows past the last column stay empty. *)
Example more_tickers_than_columns :
  exists row0 row1,
    acf_pacf draws_all prices ["AAPL"; "MSFT"; "TSLA"]
    = Ok (mk_figure (Axes2D [row0; row1; [fresh; fresh]])
                    (Some "ACF and PACF for Stock Returns")).
Proof. eexists _, _. vm_compute. reflexivity. Qed.

(** [moving_averages] sizes its grid by the columns of the table and wraps
    the single Axes of a one-column table in a list. *)
Example moving_averages_one_column :
  is_Ok (moving_averages draws_all one_column one_column one_column).
Proof. eexists. vm_compute. reflexivity. Qed.

Lemma decomposition_and_acf_sample :
  length ["AAPL"; "MSFT"] <> 0
  /\ length (columns prices) <= length ["AAPL"; "MSFT"]
  /\ (length ["AAPL"; "MSFT"] = 1 -> columns prices = []).
Proof.
  apply (decomposition_and_acf_need_a_row_per_column
           draws_all decompose_id prices ["AAPL"; "MSFT"]).
  right. eexists. vm_compute. reflexivity.
Defined.

End VisualisationExamples.

(** ** More about analysis_tools.py *)

Module AnalysisMore.
Import F64 AnalysisTools AnalysisFacts.

Section DescriptiveStats.

Variable std : Series -> float.
Variable quantile : float -> Series -> float.
Variable skew : Series -> float.
Variable kurt : Series -> float.

Local Abbreviation descriptive_stats :=
  (AnalysisTools.descriptive_stats std quantile skew kurt).
Local Abbreviation stats_row := (AnalysisFacts.stats_row std quantile skew kurt).

Lemma valid_idemp data tickers :
  valid data (valid data tickers) = valid data tickers.
Proof.
  unfold valid. induction tickers as [|t ts IH]; [done|].
  rewrite filter_cons. destruct (decide (t ∈ columns data)); [|done].
  rewrite filter_cons, decide_True by done. by rewrite IH.
Qed.

(** X1: Requested tickers that are not columns of the data change nothing: the
    call gives what it gives for the list without them (the ValueError when
    nothing is left). *)
Theorem descriptive_stats_skips_absent_tickers
    (data : DataFrame) (tickers : list string) :
  descriptive_stats data tickers
  = descriptive_stats data (filter (fun t => t ∈ columns data) tickers).
Proof.
  rewrite !descriptive_stats_unfold.
  fold (valid data tickers). by rewrite valid_idemp.
Qed.

(** X2: The rows for a list of tickers put together from two lists are the rows
    for the first followed by the rows for the second; a part without any
    column contributes nothing, and the call raises only when both do. *)
Theorem descriptive_stats_app (data : DataFrame) (l1 l2 : list string) :
  descriptive_stats data (l1 ++ l2)
  = match descriptive_stats data l1, descriptive_stats data l2 with
    | Ok r1, Ok r2 => Ok (r1 ++ r2)
    | Ok r1, Raise _ => Ok r1
    | Raise _, Ok r2 => Ok r2
    | Raise _, Raise _ => Raise no_valid_tickers
    end.
Proof.
  rewrite !descriptive_stats_unfold.
  assert (valid data (l1 ++ l2) = valid data l1 ++ valid data l2) as ->
    by apply filter_app.
  destruct (decide (valid data l1 = [])) as [E1|E1];
    destruct (decide (valid data l2 = [])) as [E2|E2].
  - rewrite E1, E2. done.
  - rewrite E1. cbn [app]. by rewrite decide_False.
  - rewrite E2, app_nil_r. by rewrite decide_False.
  - rewrite decide_False by (intros [? _]%app_eq_nil; done).
    by rewrite flat_map_app, fmap_app.
Qed.

(** X3: Every row of a result is computed from one column of the data that
    carries the row's label: the summary, the skewness and the kurtosis of
    a row are those of the same column, also when labels repeat. *)
Theorem descriptive_stats_row_of_its_column
    (data : DataFrame) (tickers : list string) (rows : list StatsRow) :
  descriptive_stats data tickers = Ok rows ->
  Forall (fun r => exists s,
            (label r, s) ∈ cols data
            /\ label r ∈ tickers
            /\ r = stats_row (label r, s)) rows.
Proof.
  rewrite descriptive_stats_unfold.
  destruct (decide (valid data tickers = [])); [done|].
  intros [= <-]. apply Forall_forall. intros r Hr.
  apply list_elem_of_fmap in Hr as ([t s] & -> & Hc).
  apply list_elem_of_In, in_flat_map in Hc as (u & Hu & Hc).
  apply list_elem_of_In, list_elem_of_filter in Hc as [Heq Hc].
  apply list_elem_of_In, list_elem_of_filter in Hu as [_ Hu].
  cbn in Heq. subst u. exists s. done.
Qed.

End DescriptiveStats.

Section Stationarity.

Variable adfuller : Series -> result (float * float).

Local Abbreviation ts_stationarity := (AnalysisTools.ts_stationarity adfuller).

Lemma adf_all_first_failure pre c post e :
  Forall (fun c => is_Ok (adfuller (dropna c.2))) pre ->
  adfuller (dropna c.2) = Raise e ->
  adf_all adfuller (pre ++ c :: post) = Raise e.
Proof.
  induction 1 as [|c' pre [adf Hadf] _ IH]; intros Hc; cbn.
  - by rewrite Hc.
  - rewrite Hadf. cbn. by rewrite IH.
Qed.

(** X4: The result is all or nothing: when the test raises on a column and
    returned on every column before it, the call raises that exception, and
    the rows of the columns before it are lost. *)
Theorem ts_stationarity_first_failure
    (data : DataFrame) (pre post : list (string * Series))
    (c : string * Series) (e : exn) :
  Table data ->
  cols data = pre ++ c :: post ->
  Forall (fun c => is_Ok (adfuller (dropna c.2))) pre ->
  adfuller (dropna c.2) = Raise e ->
  ts_stationarity data = Raise e.
Proof.
  intros Hnd Hcols Hpre Hc.
  rewrite ts_stationarity_adf_all by done. rewrite Hcols.
  by apply adf_all_first_failure.
Qed.

(** The rows of a table are the rows of its columns taken one by one: a
    result for the columns [cs1 ++ cs2] is a result for [cs1] followed by a
    result for [cs2]. *)
Lemma adf_all_app cs1 cs2 :
  adf_all adfuller (cs1 ++ cs2)
  = (r1 <- adf_all adfuller cs1;; r2 <- adf_all adfuller cs2;; Ok (r1 ++ r2)).
Proof.
  induction cs1 as [|c cs1 IH]; cbn.
  - by destruct (adf_all adfuller cs2).
  - destruct (adfuller (dropna c.2)) as [adf|e]; [|done]. cbn.
    rewrite IH. destruct (adf_all adfuller cs1) as [r1|e]; [|done]. cbn.
    by destruct (adf_all adfuller cs2).
Qed.

(** X5: The columns are tested one by one and independently: for a table whose
    columns are those of [d1] followed by those of [d2], the call gives the
    rows of [d1] followed by the rows of [d2], and raises what the first of
    the two calls to raise would. *)
Theorem ts_stationarity_app (data d1 d2 : DataFrame) :
  Table data ->
  cols data = cols d1 ++ cols d2 ->
  ts_stationarity data
  = (r1 <- ts_stationarity d1;; r2 <- ts_stationarity d2;; Ok (r1 ++ r2)).
Proof.
  intros Hnd Hcols.
  assert (Table d1 /\ Table d2) as [H1 H2].
  { unfold Table, columns in *. rewrite Hcols, fmap_app in Hnd.
    apply NoDup_app in Hnd as (? & _ & ?). done. }
  rewrite !ts_stationarity_adf_all by done. rewrite Hcols. apply adf_all_app.
Qed.

End Stationarity.

End AnalysisMore.

(** ** More about data_loader.py *)

Module DataLoaderMore.
Import DataLoader DataLoaderFacts.

Section Loader.

Variable download : request -> result Downloaded.

Local Abbreviation stock_data := (DataLoader.stock_data download).

(** The request a call makes at clock reading [now]. *)
Definition request_of (tickers : list string) (days : option Z) (now : datetime)
  : request :=
  mk_request tickers (lookback_start now (default DEFAULT_DAYS days)) now.

Lemma stock_data_in_range tickers days w :
  lookback_ok (clock w) (default DEFAULT_DAYS days) ->
  stock_data tickers days w
  = let r := request_of tickers days (clock w) in
    match download r with
    | Ok data => (Ok (Some (strip_names data)), send r w)
    | Raise E =>
        if is_Exception E
        then (Ok None,
              print ("Error al descargar datos: " ++ exn_str E) (send r w))
        else (Raise E, send r w)
    end.
Proof.
  intros Hok. unfold DataLoader.stock_data. by rewrite (range_Ok _ _ Hok).
Qed.

Lemma lookback_ok_dec now d : Decision (lookback_ok now d).
Proof. unfold lookback_ok. apply _. Qed.

(** X6: What is raised inside the handler and is no instance of Exception
    leaves the call as it is: nothing is printed and nothing is returned,
    after the request has been made. *)
Theorem stock_data_reraises_non_Exception
    (tickers : list string) (days : option Z) (w : World) (E : exn) :
  lookback_ok (clock w) (default DEFAULT_DAYS days) ->
  download (request_of tickers days (clock w)) = Raise E ->
  is_Exception E = false ->
  stock_data tickers days w
  = (Raise E, send (request_of tickers days (clock w)) w).
Proof.
  intros Hok Hdl HE. rewrite stock_data_in_range by done. cbn zeta.
  by rewrite Hdl, HE.
Qed.

(** X7: None is the answer to a failed download and to nothing else: the call
    returns None exactly when the date range could be computed and the
    provider raised an instance of Exception on the request. *)
Theorem stock_data_None_iff_provider_failed
    (tickers : list string) (days : option Z) (w : World) :
  (stock_data tickers days w).1 = Ok None
  <-> lookback_ok (clock w) (default DEFAULT_DAYS days)
      /\ exists E, download (request_of tickers days (clock w)) = Raise E
                   /\ is_Exception E = true.
Proof.
  destruct (lookback_ok_dec (clock w) (default DEFAULT_DAYS days)) as [Hok|Hno].
  - rewrite stock_data_in_range by done. cbn zeta.
    destruct (download _) as [data|E]; cbn.
    + split; [done|]. by intros (_ & E & ? & _).
    + destruct (is_Exception E) eqn:HE; cbn.
      * split; [|done]. intros _. split; [done|]. by exists E.
      * split; [done|]. intros (_ & E' & [= <-] & ?). congruence.
  - destruct (stock_data_overflow download tickers days w Hno) as [[msg H] _].
    rewrite H. split; [done|]. by intros [? _].
Qed.

(** X8: What a call does to the world: the clock is read and not set, at most
    one request is made, and a line is printed exactly when None is
    returned (one line, and none otherwise). *)
Theorem stock_data_effects
    (tickers : list string) (days : option Z) (w : World) :
  let out := stock_data tickers days w in
  clock out.2 = clock w
  /\ (requests out.2 = requests w
      \/ requests out.2 = requests w ++ [request_of tickers days (clock w)])
  /\ match out.1 with
     | Ok None => exists line, stdout out.2 = stdout w ++ [line]
     | _ => stdout out.2 = stdout w
     end.
Proof.
  cbn zeta.
  destruct (lookback_ok_dec (clock w) (default DEFAULT_DAYS days)) as [Hok|Hno].
  - rewrite stock_data_in_range by done. cbn zeta.
    destruct (download _) as [data|E]; cbn.
    + split; [done|]. split; [by right|done].
    + destruct (is_Exception E); cbn.
      * split; [done|]. split; [by right|]. by eexists.
      * split; [done|]. split; [by right|done].
  - destruct (stock_data_overflow download tickers days w Hno) as [[msg H] Hw].
    rewrite Hw. split; [done|]. split; [by left|]. by rewrite H.
Qed.

(** X9: A lookback the datetime type cannot hold (more than 999999999 days, or
    a start before year 1 or after year 9999) is not caught: the call
    raises OverflowError, makes no request and prints nothing. *)
Theorem stock_data_unrepresentable_lookback
    (tickers : list string) (days : option Z) (w : World) :
  ~ lookback_ok (clock w) (default DEFAULT_DAYS days) ->
  raises (stock_data tickers days w).1 OverflowError
  /\ (stock_data tickers days w).2 = w.
Proof. apply stock_data_overflow. Qed.

(** X10: The lookback is not checked for its sign: the start of the requested
    range lies on or before its end exactly when [days] is not negative,
    and the ticker list goes into the request as it is given. *)
Theorem stock_data_range_follows_sign_of_days
    (tickers : list string) (days : option Z) (w : World) :
  let d := default DEFAULT_DAYS days in
  lookback_ok (clock w) d ->
  exists r,
    requests (stock_data tickers days w).2 = requests w ++ [r]
    /\ req_tickers r = tickers
    /\ ((req_start r <= req_end r)%Z <-> (0 <= d)%Z)
    /\ ((req_start r = req_end r)%Z <-> d = 0%Z).
Proof.
  intros d Hok. exists (request_of tickers days (clock w)).
  split.
  - rewrite stock_data_in_range by done. cbn zeta.
    destruct (download _) as [data|E]; [done|]. by destruct (is_Exception E).
  - split; [done|]. cbn. unfold lookback_start, US_PER_DAY. fold d. lia.
Qed.

End Loader.

(** *** On the sample world *)

Definition interrupted (r : request) : result Downloaded :=
  Raise (mk_exn KeyboardInterrupt "").

Lemma stock_data_reraises_non_Exception_sample :
  stock_data interrupted ["AAPL"] None world0
  = (Raise (mk_exn KeyboardInterrupt ""),
     send (request_of ["AAPL"] None (clock world0)) world0).
Proof.
  apply (stock_data_reraises_non_Exception interrupted ["AAPL"] None world0
           (mk_exn KeyboardInterrupt "")).
  - exact world0_lookback_200.
  - reflexivity.
  - reflexivity.
Defined.

Lemma world0_no_lookback_of_a_million_days :
  ~ lookback_ok (clock world0) (default DEFAULT_DAYS (Some 1000000%Z)).
Proof. intros [_ H]. vm_compute in H. discriminate. Defined.

Lemma stock_data_unrepresentable_lookback_sample :
  raises (stock_data provider ["AAPL"] (Some 1000000%Z) world0).1 OverflowError
  /\ (stock_data provider ["AAPL"] (Some 1000000%Z) world0).2 = world0.
Proof.
  apply (stock_data_unrepresentable_lookback provider ["AAPL"] (Some 1000000%Z) world0).
  exact world0_no_lookback_of_a_million_days.
Defined.

Lemma world0_lookback_back_a_week : lookback_ok (clock world0) (-7).
Proof. split; [split|]; by vm_compute. Defined.

Lemma stock_data_range_follows_sign_sample :
  exists r,
    requests (stock_data provider ["AAPL"] (Some (-7)%Z) world0).2
      = requests world0 ++ [r]
    /\ req_tickers r = ["AAPL"]
    /\ ((req_start r <= req_end r)%Z <-> (0 <= -7)%Z)
    /\ ((req_start r = req_end r)%Z <-> (-7)%Z = 0%Z).
Proof.
  apply (stock_data_range_follows_sign_of_days provider ["AAPL"]
           (Some (-7)%Z) world0).
  exact world0_lookback_back_a_week.
Defined.

Example stock_data_negative_days :
  (stock_data provider ["AAPL"] (Some (-7)%Z) world0).2
  = mk_world morning
      [mk_request ["AAPL"] (morning + 7 * US_PER_DAY)%Z morning] [].
Proof. vm_compute. reflexivity. Qed.

End DataLoaderMore.

(** ** More about visualisation.py *)

Module VisualisationMore.
Import Visualisation AnalysisFacts VisualisationFacts.

Lemma getitem_present data t :
  t ∈ columns data -> exists y, getitem data t = Ok y.
Proof.
  intros Ht. destruct (column_of_label _ _ Ht) as [s Hs].
  unfold getitem. destruct (list_find _ _) as [[i c]|] eqn:E; [by eexists|].
  exfalso. eapply list_find_None in E.
  rewrite Forall_forall in E. by apply (E (t, s)).
Qed.

(** *** The grids at their edges *)

Section Grids.

Variable refuses : drawing -> option exn.

Local Abbreviation plot_histograms := (Visualisation.plot_histograms refuses).
Local Abbreviation plot_boxplots := (Visualisation.plot_boxplots refuses).

(** X11: An empty ticker list asks for a grid of no rows, which matplotlib
    refuses: both grid functions raise ValueError, whatever the data. *)
Theorem grids_raise_on_empty_ticker_list (data : DataFrame) :
  raises (plot_histograms data []) ValueError
  /\ raises (plot_boxplots data []) ValueError.
Proof. split; by eexists. Qed.

Lemma cells_all_absent mk decor data ts : forall axs,
  Forall (fun t => t ∉ columns data) ts ->
  length ts <= length axs ->
  cells (grid_cell refuses mk decor data) ts axs
  = Ok ((axis_off <$> take (length ts) axs) ++ drop (length ts) axs).
Proof.
  induction ts as [|t ts IH]; intros axs Hall Hlen; [done|].
  apply Forall_cons in Hall as [Ht Hall].
  destruct axs as [|ax axs]; [cbn in Hlen; lia|]. cbn in Hlen.
  cbn [cells]. unfold grid_cell at 1. rewrite decide_False by done.
  cbn [bind]. rewrite IH by (done || lia). done.
Qed.

Lemma grid_all_absent mk decor data tickers :
  tickers <> [] ->
  Forall (fun t => t ∉ columns data) tickers ->
  (axes <- subplots ((length tickers + 2) / 3) 3;;
   axes <- flatten axes;;
   axes <- cell_loop (grid_cell refuses mk decor data) (enumerate tickers) axes;;
   off_loop (seq (length tickers) (length axes - length tickers)) axes)
  = Ok (replicate (3 * ((length tickers + 2) / 3)) (axis_off fresh)).
Proof.
  intros Hne Hall.
  assert (length tickers <> 0) as Hn by (by destruct tickers).
  pose proof (subplots_flatten _ Hn) as Hgrid.
  pose proof (grid_rows_cover (length tickers)) as Hcover.
  set (n := length tickers) in *. set (m := 3 * ((n + 2) / 3)) in *.
  destruct (subplots ((n + 2) / 3) 3) as [nd|e]; [|done].
  cbn [bind] in *. rewrite Hgrid. cbn [bind].
  pose proof (cell_loop_cells (grid_cell refuses mk decor data) tickers []
                (replicate m fresh)) as Hloop.
  cbn [length app] in Hloop. fold n in Hloop. unfold enumerate. fold n.
  rewrite Hloop. clear Hloop.
  rewrite cells_all_absent by (done || by rewrite length_replicate).
  fold n. cbn [bind app].
  rewrite take_replicate, drop_replicate, fmap_replicate.
  rewrite Nat.min_l by done.
  rewrite length_app, !length_replicate.
  replace (n + (m - n) - n) with (length (replicate (m - n) fresh))
    by (rewrite length_replicate; lia).
  replace n with (length (replicate n (axis_off fresh))) at 1
    by apply length_replicate.
  rewrite off_loop_drop, fmap_replicate, <- replicate_add.
  do 2 f_equal. lia.
Qed.

(** X12: A ticker list that is not empty and names no column of the data gives
    a figure of switched-off, empty cells and no error, from either grid
    function. *)
Theorem grids_of_absent_tickers_are_blank
    (data : DataFrame) (tickers : list string) :
  tickers <> [] ->
  Forall (fun t => t ∉ columns data) tickers ->
  plot_histograms data tickers
    = Ok (replicate (3 * ((length tickers + 2) / 3)) (axis_off fresh))
  /\ plot_boxplots data tickers
    = Ok (replicate (3 * ((length tickers + 2) / 3)) (axis_off fresh)).
Proof.
  intros Hne Hall. split.
  - pose proof (grid_all_absent Hist hist_decor data tickers Hne Hall) as H.
    unfold Visualisation.plot_histograms.
    destruct (subplots _ 3) as [nd|e]; [|exact H]. cbn [bind] in *.
    destruct (flatten nd) as [axes|e]; [|exact H]. cbn [bind] in *.
    by rewrite hist_loop_cell_loop.
  - pose proof (grid_all_absent box_drawing box_decor data tickers Hne Hall) as H.
    unfold Visualisation.plot_boxplots.
    destruct (subplots _ 3) as [nd|e]; [|exact H]. cbn [bind] in *.
    destruct (flatten nd) as [axes|e]; [|exact H]. cbn [bind] in *.
    by rewrite box_loop_cell_loop.
Qed.

End Grids.

(** *** tracking_plot *)

Section Lines.

Variable refuses : drawing -> option exn.

Local Abbreviation tracking_plot := (Visualisation.tracking_plot refuses).

(** The line drawn for ticker [t] with values [y]. *)
Definition line (data : DataFrame) (t : string) (y : Series) : drawing :=
  Plot (index data) y (Some t).

(** Ticker [t] is a column of the data, [y], and the library draws its line. *)
Definition plots (data : DataFrame) (t : string) (y : Series) : Prop :=
  getitem data t = Ok y /\ refuses (line data t y) = None.

Lemma plot_lines_all data tickers ys : forall ax,
  Forall2 (plots data) tickers ys ->
  plot_lines refuses data tickers ax
  = Ok (mk_axes (artists ax ++ zip_with (line data) tickers ys)
                (title ax) (xlabel ax) (ylabel ax) (xticks ax)
                (axis_on ax) (grid_on ax) (legend_on ax)).
Proof.
  intros ax H. revert ax.
  induction H as [|t y ts ys [Hy Hr] _ IH]; intros ax.
  - cbn. rewrite app_nil_r. by destruct ax.
  - cbn [plot_lines zip_with]. rewrite Hy. cbn [bind].
    unfold Visualisation.draw. fold (line data t y). rewrite Hr. cbn [bind].
    rewrite IH. cbn. by rewrite <- app_assoc.
Qed.

(** X13: On a table, when every requested ticker is a column and the
    library draws every line, the call returns one Axes with one line per
    entry of the ticker list, in list order, each showing the column of its
    ticker over the index of the data and labelled with the ticker, under
    the given title and axis labels, with legend and grid.  (An empty list
    gives the Axes without lines.) *)
Theorem tracking_plot_draws_tickers_in_order
    (data : DataFrame) (tickers : list string) (ys : list Series)
    (title xlabel ylabel : string) :
  Table data ->
  Forall2 (fun t y => (t, y) ∈ cols data /\ refuses (line data t y) = None)
          tickers ys ->
  tracking_plot data tickers title xlabel ylabel
  = Ok (mk_axes (zip_with (line data) tickers ys)
                (Some title) (Some xlabel) (Some ylabel) None true true true).
Proof.
  intros Hnd H0.
  assert (Forall2 (plots data) tickers ys) as H.
  { eapply Forall2_impl; [exact H0|]. intros t y [Hc Hr].
    split; [by apply getitem_Table|done]. }
  unfold Visualisation.tracking_plot.
  by rewrite (plot_lines_all _ _ ys).
Qed.

Lemma plot_lines_first_absent data pre ys t post : forall ax,
  Forall2 (plots data) pre ys ->
  t ∉ columns data ->
  plot_lines refuses data (pre ++ t :: post) ax = Raise (mk_exn KeyError t).
Proof.
  intros ax H. revert ax.
  induction H as [|u y us ys [Hy Hr] _ IH]; intros ax Hnot.
  - cbn. by rewrite (getitem_missing _ _ Hnot).
  - cbn [app plot_lines]. rewrite Hy. cbn [bind].
    unfold Visualisation.draw. fold (line data u y). rewrite Hr. cbn [bind].
    by apply IH.
Qed.

(** X14: The KeyError of a call names the first entry of the ticker list that is
    not a column, when the lines of the entries before it are drawn: the
    call stops there, and the entries after it are not looked at. *)
Theorem tracking_plot_KeyError_names_first_absent
    (data : DataFrame) (pre post : list string) (ys : list Series)
    (t title xlabel ylabel : string) :
  Forall2 (plots data) pre ys ->
  t ∉ columns data ->
  tracking_plot data (pre ++ t :: post) title xlabel ylabel
  = Raise (mk_exn KeyError t).
Proof.
  intros H Hnot. unfold Visualisation.tracking_plot.
  by rewrite (plot_lines_first_absent _ _ ys).
Qed.

End Lines.

(** *** ts_decomposition and acf_pacf when the grid has a row per column *)

Lemma on_item2_middle pre row suf j f :
  on_item2 (Axes2D (pre ++ row :: suf)) (length pre) j f
  = match row !! j with
    | Some ax => ax' <- f ax;; Ok (Axes2D (pre ++ <[j := ax']> row :: suf))
    | None => Raise (mk_exn IndexError "index out of bounds for axis 1")
    end.
Proof.
  unfold on_item2, item2. rewrite list_lookup_middle by done.
  destruct (row !! j) as [ax|]; [|done]. cbn [bind].
  destruct (f ax) as [ax'|e]; [|done]. cbn [bind store2].
  by rewrite alter_app_r_alt, Nat.sub_diag by done.
Qed.

Lemma subplots_2D n c :
  2 <= n -> 2 <= c ->
  subplots n c = Ok (Axes2D (replicate n (replicate c fresh))).
Proof.
  intros Hn Hc. unfold subplots.
  rewrite (decide_False (P := n = 0)) by lia.
  rewrite (decide_False (P := c = 0)) by lia.
  rewrite (decide_False (P := n = 1 /\ c = 1)) by lia.
  rewrite (decide_False (P := n = 1)) by lia.
  by rewrite (decide_False (P := c = 1)) by lia.
Qed.

Lemma Table_getitem_cols data :
  Table data -> Forall (fun c => getitem data c.1 = Ok c.2) (cols data).
Proof.
  intros Hnd. apply Forall_forall. intros [t s] Hc.
  by apply getitem_Table.
Qed.

Section Rows.

Variable refuses : drawing -> option exn.
Variable seasonal_decompose :
  Series -> string -> Z -> result (Series * Series * Series).

Local Abbreviation ts_decomposition :=
  (Visualisation.ts_decomposition refuses seasonal_decompose).
Local Abbreviation acf_pacf := (Visualisation.acf_pacf refuses).

(** The row of three sub-charts drawn for a column: trend, seasonal part
    and residuals, each under its title and with a grid. *)
Definition decomposition_row (t : string) (trend seasonal resid : Series)
  : list Axes :=
  [ grid (set_title (t ++ " - Trend") (add_artist (PlotSeries trend) fresh));
    grid (set_title (t ++ " - Seasonal") (add_artist (PlotSeries seasonal) fresh));
    grid (set_title (t ++ " - Residuals") (add_artist (PlotSeries resid) fresh)) ].

(** The additive decomposition with period 30 of the column without its
    missing values returns, the library draws its three parts, and [row]
    shows them. *)
Definition decomposes (c : string * Series) (row : list Axes) : Prop :=
  exists trend seasonal resid,
    seasonal_decompose (dropna c.2) "additive" 30%Z = Ok (trend, seasonal, resid)
    /\ refuses (PlotSeries trend) = None
    /\ refuses (PlotSeries seasonal) = None
    /\ refuses (PlotSeries resid) = None
    /\ row = decomposition_row c.1 trend seasonal resid.

Lemma decomposition_loop_draws data cs rows : forall pre suf,
  Forall (fun c => getitem data c.1 = Ok c.2) cs ->
  Forall2 decomposes cs rows ->
  decomposition_loop refuses seasonal_decompose data
    (zip (seq (length pre) (length cs)) (cs.*1))
    (Axes2D (pre ++ replicate (length cs) [fresh; fresh; fresh] ++ suf))
  = Ok (Axes2D (pre ++ rows ++ suf)).
Proof.
  intros pre suf Hget H. revert pre Hget.
  induction H as [|c row cs rows Hc _ IH]; intros pre Hget; [done|].
  apply Forall_cons in Hget as [Hg Hget].
  destruct Hc as (tr & se & re & Hsd & Htr & Hse & Hre & ->).
  cbn [length seq fmap list_fmap zip zip_with decomposition_loop replicate app].
  rewrite Hg. cbn [bind]. unfold PERIOD. rewrite Hsd. cbn [bind].
  unfold Visualisation.draw.
  repeat (rewrite on_item2_middle; cbn [lookup list_lookup bind insert list_insert];
          rewrite ?Htr, ?Hse, ?Hre; cbn [bind]).
  specialize (IH (pre ++ [decomposition_row c.1 tr se re]) Hget).
  rewrite length_app in IH. cbn [length] in IH.
  rewrite Nat.add_1_r, <- !app_assoc in IH. exact IH.
Qed.

(** X15: With at least two tickers and at most as many columns as tickers, the
    decomposition plot returns when every column decomposes: a grid of
    [len(tickers)] rows of three sub-charts, the i-th row showing the i-th
    column of the data, and the rows past the last column left empty.  Of
    the ticker list only the length is used. *)
Theorem ts_decomposition_draws_a_row_per_column
    (data : DataFrame) (tickers : list string) (rows : list (list Axes)) :
  Table data ->
  2 <= length tickers ->
  length (cols data) <= length tickers ->
  Forall2 decomposes (cols data) rows ->
  ts_decomposition data tickers
  = Ok (mk_figure
          (Axes2D (rows ++ replicate (length tickers - length (cols data))
                                     [fresh; fresh; fresh]))
          (Some "Seasonal Decomposition of Stock Prices")).
Proof.
  intros Hnd Hn Hc Hrows. unfold Visualisation.ts_decomposition.
  rewrite subplots_2D by lia. cbn [bind replicate].
  unfold enumerate, columns. rewrite length_fmap.
  replace (length tickers)
    with (length (cols data) + (length tickers - length (cols data))) at 1 by lia.
  rewrite replicate_add.
  pose proof (decomposition_loop_draws data (cols data) rows []
                (replicate (length tickers - length (cols data))
                           [fresh; fresh; fresh])
                (Table_getitem_cols _ Hnd) Hrows) as H.
  cbn [length app] in H. rewrite H. done.
Qed.

(** The row of two sub-charts drawn for a column: autocorrelation and
    partial autocorrelation of the column without its missing values, for
    25 lags, each under its title. *)
Definition acf_pacf_row (c : string * Series) : list Axes :=
  [ set_title (c.1 ++ " - Autocorrelation (ACF)")
      (add_artist (Acf (dropna c.2) 25) fresh);
    set_title (c.1 ++ " - Partial Autocorrelation (PACF)")
      (add_artist (Pacf (dropna c.2) 25) fresh) ].

(** The library draws both sub-charts of the column. *)
Definition correlates (c : string * Series) : Prop :=
  refuses (Acf (dropna c.2) 25) = None /\ refuses (Pacf (dropna c.2) 25) = None.

Lemma acf_pacf_loop_draws data cs : forall pre suf,
  Forall (fun c => getitem data c.1 = Ok c.2) cs ->
  Forall correlates cs ->
  acf_pacf_loop refuses data
    (zip (seq (length pre) (length cs)) (cs.*1))
    (Axes2D (pre ++ replicate (length cs) [fresh; fresh] ++ suf))
  = Ok (Axes2D (pre ++ (acf_pacf_row <$> cs) ++ suf)).
Proof.
  intros pre suf Hget H. revert pre Hget.
  induction H as [|c cs [Ha Hp] _ IH]; intros pre Hget; [done|].
  apply Forall_cons in Hget as [Hg Hget].
  cbn [length seq fmap list_fmap zip zip_with acf_pacf_loop replicate app].
  rewrite Hg. cbn [bind]. unfold LAGS, Visualisation.draw.
  repeat (rewrite on_item2_middle; cbn [lookup list_lookup bind insert list_insert];
          rewrite ?Ha, ?Hp; cbn [bind]).
  specialize (IH (pre ++ [acf_pacf_row c]) Hget).
  rewrite length_app in IH. cbn [length] in IH.
  rewrite Nat.add_1_r, <- !app_assoc in IH. exact IH.
Qed.

(** X16: With at least two tickers and at most as many columns as tickers, the
    autocorrelation plot returns when the library draws every column: a
    grid of [len(tickers)] rows of two sub-charts, the i-th row showing the
    i-th column of the data, and the rows past the last column left empty. *)
Theorem acf_pacf_draws_a_row_per_column
    (data : DataFrame) (tickers : list string) :
  Table data ->
  2 <= length tickers ->
  length (cols data) <= length tickers ->
  Forall correlates (cols data) ->
  acf_pacf data tickers
  = Ok (mk_figure
          (Axes2D ((acf_pacf_row <$> cols data)
                   ++ replicate (length tickers - length (cols data))
                                [fresh; fresh]))
          (Some "ACF and PACF for Stock Returns")).
Proof.
  intros Hnd Hn Hc Hrows. unfold Visualisation.acf_pacf.
  rewrite subplots_2D by lia. cbn [bind replicate].
  unfold enumerate, columns. rewrite length_fmap.
  replace (length tickers)
    with (length (cols data) + (length tickers - length (cols data))) at 1 by lia.
  rewrite replicate_add.
  pose proof (acf_pacf_loop_draws data (cols data) []
                (replicate (length tickers - length (cols data)) [fresh; fresh])
                (Table_getitem_cols _ Hnd) Hrows) as H.
  cbn [length app] in H. rewrite H. done.
Qed.

End Rows.

(** *** moving_averages *)

(** Six calls in a row on [axes[i]] are one call that does all six. *)
Lemma on_item_six axes i f1 f2 f3 f4 f5 f6 :
  (axes <- on_item axes i f1;;
   axes <- on_item axes i f2;;
   axes <- on_item axes i f3;;
   axes <- on_item axes i f4;;
   axes <- on_item axes i f5;;
   on_item axes i f6)
  = on_item axes i (fun ax =>
      ax <- f1 ax;; ax <- f2 ax;; ax <- f3 ax;;
      ax <- f4 ax;; ax <- f5 ax;; f6 ax).
Proof.
  unfold on_item, item. destruct (axes !! i) as [ax|] eqn:E; [|done].
  apply lookup_lt_Some in E. cbn [bind].
  destruct (f1 ax) as [ax1|e]; [|done]. cbn [bind].
  rewrite list_lookup_insert_eq by done. cbn [bind].
  destruct (f2 ax1) as [ax2|e]; [|done]. cbn [bind].
  rewrite list_insert_insert_eq, list_lookup_insert_eq by done. cbn [bind].
  destruct (f3 ax2) as [ax3|e]; [|done]. cbn [bind].
  rewrite list_insert_insert_eq, list_lookup_insert_eq by done. cbn [bind].
  destruct (f4 ax3) as [ax4|e]; [|done]. cbn [bind].
  rewrite list_insert_insert_eq, list_lookup_insert_eq by done. cbn [bind].
  destruct (f5 ax4) as [ax5|e]; [|done]. cbn [bind].
  rewrite list_insert_insert_eq, list_lookup_insert_eq by done. cbn [bind].
  destruct (f6 ax5) as [ax6|e]; [|done]. cbn [bind].
  by rewrite list_insert_insert_eq.
Qed.

Lemma cells_all_Ok cell ts out :
  Forall2 (fun t ax' => cell t fresh = Ok ax') ts out ->
  cells cell ts (replicate (length ts) fresh) = Ok out.
Proof.
  induction 1 as [|t ax' ts out Ht _ IH]; [done|].
  cbn [length replicate cells]. rewrite Ht. cbn [bind]. by rewrite IH.
Qed.

Lemma cells_first_Raise cell pre out t post e :
  Forall2 (fun t ax' => cell t fresh = Ok ax') pre out ->
  cell t fresh = Raise e ->
  cells cell (pre ++ t :: post) (replicate (length (pre ++ t :: post)) fresh)
  = Raise e.
Proof.
  induction 1 as [|u ax' us out Hu _ IH]; intros Ht.
  - cbn [app length replicate cells]. by rewrite Ht.
  - cbn [app length replicate cells]. rewrite Hu. cbn [bind].
    by rewrite IH.
Qed.

Section Averages.

Variable refuses : drawing -> option exn.

Local Abbreviation draw := (Visualisation.draw refuses).
Local Abbreviation moving_averages := (Visualisation.moving_averages refuses).

(** What the loop does to the Axes of one column. *)
Definition ma_cell (data ma ema : DataFrame) (t : string) (ax : Axes)
  : result Axes :=
  y <- getitem data t;;
  ax <- draw (Plot (index data) y (Some (t ++ " - Prices")%string)) ax;;
  y <- getitem ma t;;
  ax <- draw (Plot (index ma) y (Some (t ++ " - MA")%string)) ax;;
  y <- getitem ema t;;
  ax <- draw (Plot (index ema) y (Some (t ++ " - EMA")%string)) ax;;
  Ok (grid (legend (set_title (t ++ " - Moving Averages") ax))).

Lemma ma_loop_cell_loop data ma ema its : forall axes,
  ma_loop refuses data ma ema its axes
  = cell_loop (ma_cell data ma ema) its axes.
Proof.
  induction its as [|[i t] rest IH]; intros axes; [done|].
  cbn [ma_loop cell_loop].
  rewrite <- (bind_ext _ _ _ IH).
  transitivity
    (axes' <- (axes <- on_item axes i (fun ax =>
                  y <- getitem data t;;
                  draw (Plot (index data) y (Some (t ++ " - Prices")%string)) ax);;
               axes <- on_item axes i (fun ax =>
                  y <- getitem ma t;;
                  draw (Plot (index ma) y (Some (t ++ " - MA")%string)) ax);;
               axes <- on_item axes i (fun ax =>
                  y <- getitem ema t;;
                  draw (Plot (index ema) y (Some (t ++ " - EMA")%string)) ax);;
               axes <- on_item axes i (fun ax =>
                  Ok (set_title (t ++ " - Moving Averages") ax));;
               axes <- on_item axes i (fun ax => Ok (legend ax));;
               on_item axes i (fun ax => Ok (grid ax)));;
     ma_loop refuses data ma ema rest axes').
  { repeat (destruct (on_item _ i _) as [?|?]; cbn [bind]; [|done]). done. }
  rewrite on_item_six. f_equal. apply on_item_ext. intros ax.
  unfold ma_cell.
  destruct (getitem data t) as [y|?]; cbn [bind]; [|done].
  destruct (draw _ ax) as [ax1|?]; cbn [bind]; [|done].
  destruct (getitem ma t) as [m|?]; cbn [bind]; [|done].
  destruct (draw _ ax1) as [ax2|?]; cbn [bind]; [|done].
  destruct (getitem ema t) as [e|?]; cbn [bind]; [|done].
  by destruct (draw _ ax2).
Qed.

(** For a table with at least one column the Axes of the figure come as a
    list of one fresh Axes per column: the single Axes of a one-column
    table is wrapped into a list. *)
Lemma moving_averages_cells data ma ema :
  cols data <> [] ->
  moving_averages data ma ema
  = cells (ma_cell data ma ema) (columns data)
          (replicate (length (columns data)) fresh).
Proof.
  intros Hne. unfold Visualisation.moving_averages.
  assert (length (columns data) <> 0) as Hn.
  { unfold columns. rewrite length_fmap. by destruct (cols data). }
  set (n := length (columns data)) in *.
  assert ((axes <- subplots n 1;;
           (if decide (n = 1)
            then match axes with
                 | AxesObj ax => Ok [ax]
                 | _ => Raise (mk_exn AttributeError
                          "'numpy.ndarray' object has no attribute 'plot'")
                 end
            else match axes with
                 | Axes1D l => Ok l
                 | AxesObj _ => Raise (mk_exn TypeError
                                  "'Axes' object is not subscriptable")
                 | Axes2D _ => Raise (mk_exn AttributeError
                                 "'numpy.ndarray' object has no attribute 'plot'")
                 end))
          = Ok (replicate n fresh)) as Haxes.
  { unfold subplots. rewrite (decide_False (P := n = 0)) by done.
    rewrite (decide_False (P := 1 = 0)) by done.
    destruct (decide (n = 1)) as [->|Hn1].
    - rewrite decide_True by done. done.
    - rewrite (decide_False (P := n = 1 /\ 1 = 1)) by lia.
      rewrite (decide_True (P := 1 = 1)) by done. done. }
  destruct (subplots n 1) as [nd|e]; cbn [bind] in *; [|done].
  rewrite Haxes. cbn [bind]. rewrite ma_loop_cell_loop.
  pose proof (cell_loop_cells (ma_cell data ma ema) (columns data) []
                (replicate n fresh)) as H.
  cbn [length app] in H. fold n in H. unfold enumerate. fold n. rewrite H.
  by destruct (cells _ _ _).
Qed.

(** X17: A table without columns asks for a figure of no rows, which matplotlib
    refuses: the call raises ValueError. *)
Theorem moving_averages_raises_without_columns (data ma ema : DataFrame) :
  cols data = [] ->
  raises (moving_averages data ma ema) ValueError.
Proof.
  intros H. unfold Visualisation.moving_averages, columns. rewrite H.
  by eexists.
Qed.

(** The Axes drawn for a column: its prices, its moving average and its
    exponential moving average as three labelled lines, each over the index
    of its own frame, under the title of the column, with legend and grid. *)
Definition ma_axes (data ma ema : DataFrame) (t : string) (y m e : Series)
  : Axes :=
  grid (legend (set_title (t ++ " - Moving Averages")
    (add_artist (Plot (index ema) e (Some (t ++ " - EMA")%string))
    (add_artist (Plot (index ma) m (Some (t ++ " - MA")%string))
    (add_artist (Plot (index data) y (Some (t ++ " - Prices")%string))
                fresh))))).

(** The column has an average in [ma] and in [ema], the library draws the
    three lines, and [ax] shows them. *)
Definition averaged (data ma ema : DataFrame) (c : string * Series) (ax : Axes)
  : Prop :=
  exists m e,
    getitem ma c.1 = Ok m /\ getitem ema c.1 = Ok e
    /\ refuses (Plot (index data) c.2 (Some (c.1 ++ " - Prices")%string)) = None
    /\ refuses (Plot (index ma) m (Some (c.1 ++ " - MA")%string)) = None
    /\ refuses (Plot (index ema) e (Some (c.1 ++ " - EMA")%string)) = None
    /\ ax = ma_axes data ma ema c.1 c.2 m e.

Lemma averaged_ma_cell data ma ema cs axes :
  Forall (fun c => getitem data c.1 = Ok c.2) cs ->
  Forall2 (averaged data ma ema) cs axes ->
  Forall2 (fun t ax' => ma_cell data ma ema t fresh = Ok ax') (cs.*1) axes.
Proof.
  intros Hget H. induction H as [|c ax cs axes Hc _ IH]; [constructor|].
  apply Forall_cons in Hget as [Hg Hget].
  cbn. constructor; [|by apply IH].
  destruct Hc as (m & e & Hm & He & H1 & H2 & H3 & ->).
  unfold ma_cell, Visualisation.draw.
  rewrite Hg. cbn [bind]. rewrite H1. cbn [bind].
  rewrite Hm. cbn [bind]. rewrite H2. cbn [bind].
  rewrite He. cbn [bind]. by rewrite H3.
Qed.

(** X18: The grid is sized by the columns of the data: for tables [data],
    [ma] and [ema], the data with at least one column and each of its
    columns with its two averages, the call returns one Axes per column, in
    column order, also for a table of a single column. *)
Theorem moving_averages_draws_an_axes_per_column
    (data ma ema : DataFrame) (axes : list Axes) :
  Table data ->
  Table ma ->
  Table ema ->
  cols data <> [] ->
  Forall2 (averaged data ma ema) (cols data) axes ->
  moving_averages data ma ema = Ok axes.
Proof.
  intros Hnd _ _ Hne H. rewrite moving_averages_cells by done.
  apply cells_all_Ok. fold (columns data).
  by apply averaged_ma_cell; [apply Table_getitem_cols|].
Qed.

(** X19: A column of the data that [ma] does not have stops the call with its
    KeyError, once the columns before it are drawn and its own prices are:
    [ma] and [ema] are not checked against the data beforehand. *)
Theorem moving_averages_KeyError_without_average
    (data ma ema : DataFrame) (pre post : list (string * Series))
    (c : string * Series) (drawn : list Axes) :
  Table data ->
  cols data = pre ++ c :: post ->
  Forall2 (averaged data ma ema) pre drawn ->
  refuses (Plot (index data) c.2 (Some (c.1 ++ " - Prices")%string)) = None ->
  c.1 ∉ columns ma ->
  moving_averages data ma ema = Raise (mk_exn KeyError c.1).
Proof.
  intros Hnd Hcols Hpre Hr Hnot.
  pose proof (Table_getitem_cols _ Hnd) as Hget. rewrite Hcols in Hget.
  apply Forall_app in Hget as [Hgpre Hgc].
  apply Forall_cons in Hgc as [Hgc _].
  rewrite moving_averages_cells by (rewrite Hcols; by destruct pre).
  unfold columns. rewrite Hcols, fmap_app, fmap_cons.
  apply (cells_first_Raise _ _ drawn).
  - by apply averaged_ma_cell.
  - unfold ma_cell, Visualisation.draw. rewrite Hgc. cbn [bind].
    rewrite Hr. cbn [bind]. by rewrite (getitem_missing _ _ Hnot).
Qed.

End Averages.

End VisualisationMore.

(** ** The further statements on sample data *)

Module MoreExamples.
Import AnalysisTools AnalysisFacts AnalysisExamples AnalysisMore.
Import Visualisation VisualisationFacts VisualisationExamples VisualisationMore.

(** *** analysis_tools.py *)

Definition msft_aapl_rows : list StatsRow :=
  [ stats_row stat0 quantile0 stat0 stat0 ("MSFT", [nan; 0.5; -0.25]%float);
    stats_row stat0 quantile0 stat0 stat0 ("AAPL", [tenth; tenth; tenth]) ].

Lemma descriptive_stats_row_of_its_column_sample :
  Forall (fun r => exists s,
            (label r, s) ∈ cols returns
            /\ label r ∈ ["MSFT"; "GOOG"; "AAPL"]
            /\ r = stats_row stat0 quantile0 stat0 stat0 (label r, s))
         msft_aapl_rows.
Proof.
  apply (descriptive_stats_row_of_its_column stat0 quantile0 stat0 stat0
           returns ["MSFT"; "GOOG"; "AAPL"] msft_aapl_rows).
  vm_compute. reflexivity.
Defined.

Example descriptive_stats_app_sample :
  descriptive_stats stat0 quantile0 stat0 stat0 returns (["GOOG"] ++ ["MSFT"; "AAPL"])
  = Ok msft_aapl_rows.
Proof. vm_compute. reflexivity. Qed.

(** With [adf2] the first two columns of [returns] have the two values the
    test needs and the third, all missing, has none. *)
Lemma ts_stationarity_first_failure_sample :
  ts_stationarity adf2 returns
  = Raise (mk_exn ValueError "sample size is too short").
Proof.
  apply (ts_stationarity_first_failure adf2 returns
           [("AAPL", [tenth; tenth; tenth]); ("MSFT", [nan; 0.5; -0.25]%float)]
           [] ("TSLA", [nan; nan; nan])).
  - exact returns_Table.
  - reflexivity.
  - repeat constructor; eexists; vm_compute; reflexivity.
  - reflexivity.
Defined.

Definition msft_only : DataFrame :=
  {| index := index prices; index_name := None; columns_name := None;
     cols := [("MSFT", [nan; -1.25; significance; 371.0]%float)] |}.

Lemma ts_stationarity_app_sample :
  ts_stationarity adf2 prices
  = (r1 <- ts_stationarity adf2 one_column;;
     r2 <- ts_stationarity adf2 msft_only;;
     Ok (r1 ++ r2)).
Proof.
  apply (ts_stationarity_app adf2 prices one_column msft_only).
  - exact prices_Table.
  - reflexivity.
Defined.

(** *** visualisation.py *)

Lemma grids_of_absent_tickers_sample :
  plot_histograms draws_all returns ["GOOG"; "IBM"; "ORCL"; "SAP"]
    = Ok (replicate 6 (axis_off fresh))
  /\ plot_boxplots draws_all returns ["GOOG"; "IBM"; "ORCL"; "SAP"]
    = Ok (replicate 6 (axis_off fresh)).
Proof.
  apply (grids_of_absent_tickers_are_blank draws_all returns
           ["GOOG"; "IBM"; "ORCL"; "SAP"]).
  - discriminate.
  - by apply (bool_decide_unpack _).
Defined.

Lemma tracking_plot_draws_tickers_sample :
  tracking_plot draws_all returns ["MSFT"; "AAPL"; "MSFT"] "Returns" "Date" "Return"
  = Ok (mk_axes
          (zip_with (line returns) ["MSFT"; "AAPL"; "MSFT"]
             [ [nan; 0.5; -0.25]%float; [tenth; tenth; tenth];
               [nan; 0.5; -0.25]%float ])
          (Some "Returns") (Some "Date") (Some "Return") None true true true).
Proof.
  apply (tracking_plot_draws_tickers_in_order draws_all returns
           ["MSFT"; "AAPL"; "MSFT"]).
  - exact returns_Table.
  - repeat constructor; by apply (bool_decide_unpack _).
Defined.

Lemma tracking_plot_KeyError_sample :
  tracking_plot draws_all returns (["MSFT"; "AAPL"] ++ "GOOG" :: ["IBM"])
    "Returns" "Date" "Return"
  = Raise (mk_exn KeyError "GOOG").
Proof.
  apply (tracking_plot_KeyError_names_first_absent draws_all returns
           ["MSFT"; "AAPL"] ["IBM"]
           [ [nan; 0.5; -0.25]%float; [tenth; tenth; tenth] ]).
  - repeat constructor.
  - by apply (bool_decide_unpack _).
Defined.

Lemma ts_decomposition_draws_rows_sample :
  ts_decomposition draws_all decompose_id prices ["AAPL"; "MSFT"; "TSLA"]
  = Ok (mk_figure
          (Axes2D
             ([ decomposition_row "AAPL"
                  [-3.5; 0.015625; 187.25]%float
                  [-3.5; 0.015625; 187.25]%float
                  [-3.5; 0.015625; 187.25]%float;
                decomposition_row "MSFT"
                  [-1.25; significance; 371.0]%float
                  [-1.25; significance; 371.0]%float
                  [-1.25; significance; 371.0]%float ]
              ++ replicate (3 - 2) [fresh; fresh; fresh]))
          (Some "Seasonal Decomposition of Stock Prices")).
Proof.
  apply (ts_decomposition_draws_a_row_per_column draws_all decompose_id
           prices ["AAPL"; "MSFT"; "TSLA"]).
  - exact prices_Table.
  - cbn. lia.
  - cbn. lia.
  - repeat constructor; eexists _, _, _; repeat split; reflexivity.
Defined.

Lemma acf_pacf_draws_rows_sample :
  acf_pacf draws_all prices ["AAPL"; "MSFT"]
  = Ok (mk_figure
          (Axes2D ((acf_pacf_row <$> cols prices)
                   ++ replicate (2 - 2) [fresh; fresh]))
          (Some "ACF and PACF for Stock Returns")).
Proof.
  apply (acf_pacf_draws_a_row_per_column draws_all prices ["AAPL"; "MSFT"]).
  - exact prices_Table.
  - cbn. lia.
  - cbn. lia.
  - repeat constructor.
Defined.

Definition no_columns : DataFrame :=
  {| index := index prices; index_name := None; columns_name := None;
     cols := [] |}.

Lemma moving_averages_without_columns_sample :
  raises (moving_averages draws_all no_columns prices prices) ValueError.
Proof.
  apply (moving_averages_raises_without_columns draws_all no_columns prices prices).
  reflexivity.
Defined.

Lemma one_column_Table : Table one_column.
Proof. by apply (bool_decide_unpack _). Defined.

(** A table of one column, drawn with the averages taken from [prices]. *)
Lemma moving_averages_one_column_sample :
  moving_averages draws_all one_column prices prices
  = Ok [ ma_axes one_column prices prices "AAPL"
           [-3.5; 0.015625; 187.25]%float
           [-3.5; 0.015625; 187.25]%float
           [-3.5; 0.015625; 187.25]%float ].
Proof.
  apply (moving_averages_draws_an_axes_per_column draws_all
           one_column prices prices).
  - exact one_column_Table.
  - exact prices_Table.
  - exact prices_Table.
  - discriminate.
  - repeat constructor. eexists _, _. repeat split; reflexivity.
Defined.

(** The averages of [one_column] know AAPL only: MSFT stops the call. *)
Lemma moving_averages_KeyError_sample :
  moving_averages draws_all prices one_column prices
  = Raise (mk_exn KeyError "MSFT").
Proof.
  apply (moving_averages_KeyError_without_average draws_all
           prices one_column prices
           [("AAPL", [-3.5; 0.015625; 187.25]%float)] []
           ("MSFT", [nan; -1.25; significance; 371.0]%float)
           [ ma_axes prices one_column prices "AAPL"
               [-3.5; 0.015625; 187.25]%float
               [-3.5; 0.015625; 187.25]%float
               [-3.5; 0.015625; 187.25]%float ]).
  - exact prices_Table.
  - reflexivity.
  - repeat constructor. eexists _, _. repeat split; reflexivity.
  - reflexivity.
  - by apply (bool_decide_unpack _).
Defined.

End MoreExamples.
